(** * Orders service (server.js): request validation, statement construction,
      query execution and responses.

    The service is an Express application with one helper, [queryDB], and
    eight routes.  Three things it talks to are not part of the program:
    the validation library (express-validator over validator.js), the
    connection pool and the database behind it.  The validation rules the
    routes declare are interpreted here by a small interpreter that follows
    the library's documented behaviour; the pool and the database are a
    [driver], and the general theorems hold for every driver.  A reference
    driver describing a MariaDB server over the [orders] table is used for
    the closed examples. *)

From Stdlib Require Import String Ascii List ZArith Bool Lia.
From Stdlib Require Import DecimalString DecimalZ.
Import ListNotations.
Open Scope string_scope.
Open Scope Z_scope.

(** ** JavaScript values carried by a request body

    A JSON body field is absent ([Undefined]) or holds a scalar.  Numbers
    are the integers a JSON number holds exactly: they are the only
    numbers an integer check accepts, and [String] renders them in plain
    decimal.  Strings are sequences of code units below 256. *)

Module JS.

Inductive value : Type :=
| Undefined
| Null
| Bool (b : bool)
| Num (z : Z)
| Str (s : string).

Definition value_eq_dec (a b : value) : {a = b} + {a <> b}.
Proof.
  decide equality; [apply Bool.bool_dec | apply Z.eq_dec | apply string_dec].
Defined.

(** Truthiness, as tested by [if (name)] and [if (conn)]. *)
Definition truthy (v : value) : bool :=
  match v with
  | Undefined | Null => false
  | Bool b => b
  | Num z => negb (z =? 0)
  | Str s => negb (s =? EmptyString)%string
  end.

(** The plain decimal writing of an integer.  It is [String(z)] for a
    number of magnitude below 10^21; from there on JavaScript prints the
    exponent form. *)
Definition string_of_Z (z : Z) : string := NilZero.string_of_int (Z.to_int z).

(** [Array.prototype.push]. *)
Definition push {A : Type} (l : list A) (x : A) : list A := (l ++ [x])%list.

(** [Array.prototype.join]. *)
Fixpoint join (sep : string) (l : list string) : string :=
  match l with
  | [] => EmptyString
  | [x] => x
  | x :: rest => x ++ sep ++ join sep rest
  end.

End JS.
Import JS.

(** ** validator.js: the string functions the routes use *)

Module Validator.

(** The characters matched by the regular expression class [\s], among
    code units below 256. *)
Definition is_space (c : ascii) : bool :=
  let n := nat_of_ascii c in
  (Nat.eqb n 9 || Nat.eqb n 10 || Nat.eqb n 11 || Nat.eqb n 12
   || Nat.eqb n 13 || Nat.eqb n 32 || Nat.eqb n 160)%bool.

Fixpoint ltrim (s : string) : string :=
  match s with
  | EmptyString => EmptyString
  | String c r => if is_space c then ltrim r else s
  end.

Fixpoint rtrim (s : string) : string :=
  match s with
  | EmptyString => EmptyString
  | String c r =>
      match rtrim r with
      | EmptyString => if is_space c then EmptyString else String c EmptyString
      | r' => String c r'
      end
  end.

(** [trim(str)] is [rtrim(ltrim(str))]. *)
Definition trim (s : string) : string := rtrim (ltrim s).

(** [escape(str)]: the eight replacements of validator.js. *)
Definition escape_char (c : ascii) : string :=
  match nat_of_ascii c with
  | 38%nat => "&amp;"
  | 34%nat => "&quot;"
  | 39%nat => "&#x27;"
  | 60%nat => "&lt;"
  | 62%nat => "&gt;"
  | 47%nat => "&#x2F;"
  | 92%nat => "&#x5C;"
  | 96%nat => "&#96;"
  | _ => String c EmptyString
  end.

Fixpoint escape (s : string) : string :=
  match s with
  | EmptyString => EmptyString
  | String c r => escape_char c ++ escape r
  end.

(** [isLength(str, {min})]. *)
Definition isLength (min : nat) (s : string) : bool :=
  Nat.leb min (String.length s).

Definition is_digit (c : ascii) : bool :=
  let n := nat_of_ascii c in (Nat.leb 48 n && Nat.leb n 57)%bool.

Fixpoint all_digits (s : string) : bool :=
  match s with
  | EmptyString => true
  | String c r => (is_digit c && all_digits r)%bool
  end.

Definition nonempty_digits (s : string) : bool :=
  match s with
  | EmptyString => false
  | _ => all_digits s
  end.

(** The regular expression [/^[-+]?[0-9]+$/] used by [isInt] when leading
    zeroes are not forbidden. *)
Definition int_syntax (s : string) : bool :=
  match s with
  | EmptyString => false
  | String c r =>
      if (Ascii.eqb c "+" || Ascii.eqb c "-")%bool then nonempty_digits r
      else nonempty_digits s
  end.

Fixpoint digits_value (acc : Z) (s : string) : Z :=
  match s with
  | EmptyString => acc
  | String c r => digits_value (10 * acc + (Z.of_nat (nat_of_ascii c) - 48)) r
  end.

(** The number a string of [int_syntax] denotes. *)
Definition int_value (s : string) : Z :=
  match s with
  | EmptyString => 0
  | String c r =>
      if Ascii.eqb c "-" then - digits_value 0 r
      else if Ascii.eqb c "+" then digits_value 0 r
      else digits_value 0 s
  end.

(** [isInt(str, options)]: the syntax check, and [str >= options.min]
    when a minimum is given. *)
Definition isInt (min : option Z) (s : string) : bool :=
  (int_syntax s &&
   match min with
   | None => true
   | Some m => m <=? int_value s
   end)%bool.

End Validator.

(** ** Express: requests and responses *)

Module Express.

(** What the routes read of a request: the path segment [:id] (always a
    string) and the two body fields.  Other body fields are never read.
    The body is an object, as the JSON parser delivers one; a request
    whose body the parser left undefined is not among these. *)
Record request : Type := mkRequest {
  params_id : string;
  body_name : value;
  body_quantity : value
}.

(** A request field a validation chain is declared on. *)
Inductive field : Type :=
| ParamId        (* param('id')      *)
| BodyName       (* body('name')     *)
| BodyQuantity.  (* body('quantity') *)

Definition get_field (f : field) (req : request) : value :=
  match f with
  | ParamId => Str (params_id req)
  | BodyName => body_name req
  | BodyQuantity => body_quantity req
  end.

End Express.
Import Express.

(** ** express-validator: validation chains *)

Module ExpressValidator.
Import Validator.

(** The library's [toString], applied to a value before a standard
    validator or sanitizer sees it. *)
Definition toString (v : value) : string :=
  match v with
  | Undefined | Null => EmptyString
  | Bool true => "true"
  | Bool false => "false"
  | Num z => string_of_Z z
  | Str s => s
  end.

Inductive item : Type :=
| Trim                       (* .trim()      sanitizer *)
| Escape                     (* .escape()    sanitizer *)
| IsLength (min : nat)       (* .isLength({ min })     *)
| IsInt (min : option Z).    (* .isInt() / .isInt({ min }) *)

Record chain : Type := mkChain {
  c_field : field;
  c_optional : bool;         (* .optional() anywhere in the chain *)
  c_items : list item
}.

(** One entry of [errors.array()]. *)
Record verror : Type := mkError {
  e_field : field;
  e_value : value;
  e_msg : string
}.

Definition invalid (f : field) (v : value) : verror :=
  mkError f v "Invalid value".

Definition run_item (f : field) (it : item) (v : value) : value * list verror :=
  match it with
  | Trim => (Str (trim (toString v)), [])
  | Escape => (Str (escape (toString v)), [])
  | IsLength m =>
      (v, if isLength m (toString v) then [] else [invalid f v])
  | IsInt m =>
      (v, if isInt m (toString v) then [] else [invalid f v])
  end.

(** [.optional()] with its default options: an item is skipped while the
    field's value is [undefined]. *)
Definition skipped (optional : bool) (v : value) : bool :=
  (optional && if value_eq_dec v Undefined then true else false)%bool.

Fixpoint run_items (f : field) (optional : bool) (items : list item)
    (v : value) : value * list verror :=
  match items with
  | [] => (v, [])
  | it :: rest =>
      if skipped optional v then run_items f optional rest v
      else
        let (v1, es1) := run_item f it v in
        let (v2, es2) := run_items f optional rest v1 in
        (v2, (es1 ++ es2)%list)
  end.

(** The sanitized value is written back to the request. *)
Definition set_field (f : field) (v : value) (req : request) : request :=
  match f with
  | ParamId => mkRequest (toString v) (body_name req) (body_quantity req)
  | BodyName => mkRequest (params_id req) v (body_quantity req)
  | BodyQuantity => mkRequest (params_id req) (body_name req) v
  end.

Definition run_chain (c : chain) (st : request * list verror)
    : request * list verror :=
  let (req, errors) := st in
  let (v, es) := run_items (c_field c) (c_optional c) (c_items c)
                   (get_field (c_field c) req) in
  (set_field (c_field c) v req, (errors ++ es)%list).

(** The chains of a route run in the order they are declared. *)
Definition run_chains (cs : list chain) (req : request) : request * list verror :=
  fold_left (fun st c => run_chain c st) cs (req, []).

(** [errors.isEmpty()]. *)
Definition isEmpty (errors : list verror) : bool :=
  match errors with [] => true | _ => false end.

Definition param (f : field) (items : list item) : chain := mkChain f false items.
Definition body (f : field) (items : list item) : chain := mkChain f false items.
Definition optional (c : chain) : chain := mkChain (c_field c) true (c_items c).

End ExpressValidator.
Import ExpressValidator.

(** ** The database driver *)

Module Driver.

(** A row: column names with their values. *)
Definition row : Type := list (string * value).

(** What [conn.query] resolves to: the rows of a SELECT, or the summary
    packet of an INSERT, UPDATE or DELETE. *)
Inductive query_result : Type :=
| Rows (rows : list row)
| OkPacket (affectedRows : Z) (insertId : Z).

(** [result.insertId] and [result.affectedRows]; a row array has neither
    property. *)
Definition insertId (r : query_result) : value :=
  match r with
  | OkPacket _ i => Num i
  | Rows _ => Undefined
  end.

Definition affectedRows (r : query_result) : value :=
  match r with
  | OkPacket a _ => Num a
  | Rows _ => Undefined
  end.

(** An awaited call returns, or throws an error with a message. *)
Inductive outcome (A : Type) : Type :=
| Returned (a : A)
| Thrown (message : string).
Arguments Returned {A} a.
Arguments Thrown {A} message.

Definition conn : Type := nat.

(** The pool and its connections over a world [W].  [conn_query c sql
    values] is [c.query(sql, values)]; [values] is [None] when the call
    passes the statement alone. *)
Record driver (W : Type) : Type := mkDriver {
  pool_getConnection : W -> outcome conn * W;
  conn_query : conn -> string -> option (list value) -> W -> outcome query_result * W;
  conn_release : conn -> W -> W
}.
Arguments pool_getConnection {W}.
Arguments conn_query {W}.
Arguments conn_release {W}.

(** The calls that reach the driver, in order. *)
Inductive event : Type :=
| Acquire (c : conn)
| Query (c : conn) (sql : string) (values : option (list value))
| Release (c : conn).

Record state (W : Type) : Type := mkState {
  world : W;
  trace : list event
}.
Arguments mkState {W}.
Arguments world {W}.
Arguments trace {W}.

End Driver.
Import Driver.

(** ** server.js *)

Module Server.

(** [res.status(s).json(...)], [res.json(...)] (status 200) and
    [res.send(...)]. *)
Inductive payload : Type :=
| JsonResult (rows : query_result)                     (* res.json(rows) *)
| JsonCreated (id name quantity : value)               (* { id, name, quantity } *)
| JsonMsg (msg : string) (affected : value)            (* { msg, affectedRows } *)
| JsonError (error : string)                           (* { error } *)
| JsonErrors (errors : list verror)                    (* { errors } *)
| Text (text : string).

Record response : Type := mkResponse {
  status : Z;
  sent : payload
}.

Inductive route : Type :=
| GET_orders
| POST_orders
| PATCH_orders_id
| PUT_orders_id
| DELETE_orders_id
| GET_student
| GET_foods
| GET_root.

(** The validation chains declared on the routes. *)
Definition post_orders_chains : list chain :=
  [ body BodyName [Trim; IsLength 1; Escape];
    body BodyQuantity [IsInt (Some 1)] ].

Definition patch_orders_chains : list chain :=
  [ param ParamId [IsInt None];
    optional (body BodyName [Trim; Escape]);
    optional (body BodyQuantity [IsInt (Some 1)]) ].

Definition put_orders_chains : list chain :=
  [ param ParamId [IsInt None];
    body BodyName [Trim; IsLength 1; Escape];
    body BodyQuantity [IsInt (Some 1)] ].

Definition delete_orders_chains : list chain :=
  [ param ParamId [IsInt None] ].

Definition chains_of (r : route) : list chain :=
  match r with
  | POST_orders => post_orders_chains
  | PATCH_orders_id => patch_orders_chains
  | PUT_orders_id => put_orders_chains
  | DELETE_orders_id => delete_orders_chains
  | GET_orders | GET_student | GET_foods | GET_root => []
  end.

(** The request as the handler body sees it, and [validationResult(req)]. *)
Definition sanitized (r : route) (req : request) : request :=
  fst (run_chains (chains_of r) req).

Definition validationResult (r : route) (req : request) : list verror :=
  snd (run_chains (chains_of r) req).

(** The [updates] and [values] arrays and the statement text of the PATCH
    handler in closed form: each truthy field contributes its assignment
    and its value, name before quantity, and the id comes last. *)
Definition patch_updates (name quantity : value) : list string :=
  ((if truthy name then ["name=?"] else []) ++
   (if truthy quantity then ["quantity=?"] else []))%list.

Definition patch_values (name quantity : value) (id : string) : list value :=
  ((if truthy name then [name] else []) ++
   (if truthy quantity then [quantity] else []) ++
   [Str id])%list.

Definition patch_sql (name quantity : value) : string :=
  "UPDATE orders SET " ++ join ", " (patch_updates name quantity) ++ " WHERE id=?".

(** The success answers of the routes. *)
Definition listed (rows : query_result) : response :=
  mkResponse 200 (JsonResult rows).

Definition created (name quantity : value) (result : query_result) : response :=
  mkResponse 201 (JsonCreated (insertId result) name quantity).

Definition updated (result : query_result) : response :=
  mkResponse 200 (JsonMsg "Order updated" (affectedRows result)).

Definition replaced (result : query_result) : response :=
  mkResponse 200 (JsonMsg "Order replaced" (affectedRows result)).

Definition deleted (result : query_result) : response :=
  mkResponse 200 (JsonMsg "Order deleted" (affectedRows result)).

(** Past validation every database route has one shape: a single call
    [queryDB(sql, values)] inside [try], a success answer built from the
    result, and [catch] answering 500.  [call_of] is that call and answer
    for each route, read off the handler bodies; [req] is the request as
    the handler body sees it. *)
Definition call_of (r : route) (req : request)
    : option (string * option (list value) * (query_result -> response)) :=
  let name := body_name req in
  let quantity := body_quantity req in
  let id := params_id req in
  match r with
  | GET_orders => Some ("SELECT * FROM orders;", None, listed)
  | POST_orders =>
      Some ("INSERT INTO orders(name, quantity) VALUES (?, ?)",
            Some [name; quantity], created name quantity)
  | PATCH_orders_id =>
      Some (patch_sql name quantity, Some (patch_values name quantity id), updated)
  | PUT_orders_id =>
      Some ("UPDATE orders SET name=?, quantity=? WHERE id=?",
            Some [name; quantity; Str id], replaced)
  | DELETE_orders_id =>
      Some ("DELETE FROM orders WHERE id=?", Some [Str id], deleted)
  | GET_student => Some ("SELECT * FROM student;", None, listed)
  | GET_foods => Some ("SELECT * FROM foods;", None, listed)
  | GET_root => None
  end.

(** The error a validator reports when its test fails. *)
Definition check (f : field) (ok : bool) (v : value) : list verror :=
  if ok then [] else [invalid f v].

(** What the PATCH chains leave in [req.body.name], and the errors its
    quantity chain reports: both chains are skipped on an absent field. *)
Definition patch_name (name : value) : value :=
  match name with
  | Undefined => Undefined
  | _ => Str (Validator.escape (Validator.trim (toString name)))
  end.

Definition patch_quantity_errors (quantity : value) : list verror :=
  match quantity with
  | Undefined => []
  | _ => check BodyQuantity
           (Validator.isInt (Some 1) (toString quantity)) quantity
  end.

(** The driver calls of a trace that carry bound values, and the number
    of times a connection is released. *)
Definition bound_values (ev : event) : bool :=
  match ev with
  | Query _ _ (Some _) => true
  | _ => false
  end.

Fixpoint releases (c : conn) (evs : list event) : nat :=
  match evs with
  | [] => 0%nat
  | Release c' :: rest =>
      if Nat.eqb c c' then S (releases c rest) else releases c rest
  | _ :: rest => releases c rest
  end.

Section WithDriver.

Variable W : Type.
Variable d : driver W.

(** An asynchronous computation over the driver: it returns or throws,
    and the world and the trace of driver calls persist either way. *)
Definition M (A : Type) : Type := state W -> outcome A * state W.

Definition ret {A : Type} (a : A) : M A := fun st => (Returned a, st).

Definition bind {A B : Type} (m : M A) (k : A -> M B) : M B :=
  fun st =>
    match m st with
    | (Returned a, st1) => k a st1
    | (Thrown e, st1) => (Thrown e, st1)
    end.

(** [try { body } catch (err) { handler(err.message) }]. *)
Definition try_catch {A : Type} (body : M A) (handler : string -> M A) : M A :=
  fun st =>
    match body st with
    | (Returned a, st1) => (Returned a, st1)
    | (Thrown e, st1) => handler e st1
    end.

Notation "x <- m ;; k" := (bind m (fun x => k))
  (at level 61, m at next level, right associativity).

(** [await pool.getConnection()]. *)
Definition getConnection : M conn :=
  fun st =>
    match pool_getConnection d (world st) with
    | (Returned c, w) => (Returned c, mkState w (trace st ++ [Acquire c]))
    | (Thrown e, w) => (Thrown e, mkState w (trace st))
    end.

(** [await conn.query(sql)] or [await conn.query(sql, values)]. *)
Definition query (c : conn) (sql : string) (values : option (list value))
    : M query_result :=
  fun st =>
    let (r, w) := conn_query d c sql values (world st) in
    (r, mkState w (trace st ++ [Query c sql values])).

(** [conn.release()]. *)
Definition release (c : conn) (st : state W) : state W :=
  mkState (conn_release d c (world st)) (trace st ++ [Release c]).

(** [finally { if (conn) conn.release(); }], run on either exit of the
    [try] block with the [conn] variable as the block left it. *)
Definition finally_release {A : Type} (conn_var : option conn)
    (exit : outcome A * state W) : outcome A * state W :=
  match conn_var with
  | Some c => (fst exit, release c (snd exit))
  | None => exit
  end.

(** [async function queryDB(sql)].  The function declares the one formal
    parameter [sql]; a caller may pass a second argument, which the body
    has no name for.  The statement goes to [conn.query(sql)] alone. *)
Definition queryDB (sql : string) (second_argument : option (list value))
    : M query_result :=
  fun st =>
    match getConnection st with
    | (Thrown e, st1) =>
        (* conn is still undefined *)
        finally_release None (Thrown e, st1)
    | (Returned c, st1) =>
        (* conn = c; const rows = await conn.query(sql); return rows *)
        finally_release (Some c) (query c sql None st1)
    end.

Definition get_orders (req : request) : M response :=
  try_catch
    (rows <- queryDB "SELECT * FROM orders;" None ;;
     ret (mkResponse 200 (JsonResult rows)))
    (fun err => ret (mkResponse 500 (JsonError err))).

Definition post_orders (req0 : request) : M response :=
  let (req, errors) := run_chains post_orders_chains req0 in
  if negb (isEmpty errors) then ret (mkResponse 400 (JsonErrors errors))
  else
    let name := body_name req in
    let quantity := body_quantity req in
    try_catch
      (result <- queryDB "INSERT INTO orders(name, quantity) VALUES (?, ?)"
                   (Some [name; quantity]) ;;
       ret (mkResponse 201 (JsonCreated (insertId result) name quantity)))
      (fun err => ret (mkResponse 500 (JsonError err))).

(** The answer built around one call of an executor: the success answer
    from its result, 500 with the message when it throws. *)
Definition answering
    (execute : string -> option (list value) -> M query_result)
    (sql : string) (values : option (list value))
    (ok : query_result -> response) : M response :=
  try_catch
    (result <- execute sql values ;;
     ret (ok result))
    (fun err => ret (mkResponse 500 (JsonError err))).

(** The body of the PATCH handler, with the executor it calls as
    [execute], so that the statement and the value array it passes can be
    observed; the route's handler, [patch_orders], is this body calling
    [queryDB]. *)
Definition patch_handler
    (execute : string -> option (list value) -> M query_result)
    (req0 : request) : M response :=
  let (req, errors) := run_chains patch_orders_chains req0 in
  if negb (isEmpty errors) then ret (mkResponse 400 (JsonErrors errors))
  else
    let name := body_name req in
    let quantity := body_quantity req in
    let id := params_id req in
    let updates := [] in
    let values := [] in
    let '(updates, values) :=
      if truthy name then (push updates "name=?", push values name)
      else (updates, values) in
    let '(updates, values) :=
      if truthy quantity then (push updates "quantity=?", push values quantity)
      else (updates, values) in
    let values := push values (Str id) in
    try_catch
      (result <- execute ("UPDATE orders SET " ++ join ", " updates ++ " WHERE id=?")
                   (Some values) ;;
       ret (mkResponse 200 (JsonMsg "Order updated" (affectedRows result))))
      (fun err => ret (mkResponse 500 (JsonError err))).

Definition patch_orders (req0 : request) : M response :=
  patch_handler queryDB req0.

Definition put_orders (req0 : request) : M response :=
  let (req, errors) := run_chains put_orders_chains req0 in
  if negb (isEmpty errors) then ret (mkResponse 400 (JsonErrors errors))
  else
    let name := body_name req in
    let quantity := body_quantity req in
    let id := params_id req in
    try_catch
      (result <- queryDB "UPDATE orders SET name=?, quantity=? WHERE id=?"
                   (Some [name; quantity; Str id]) ;;
       ret (mkResponse 200 (JsonMsg "Order replaced" (affectedRows result))))
      (fun err => ret (mkResponse 500 (JsonError err))).

Definition delete_orders (req0 : request) : M response :=
  let (req, errors) := run_chains delete_orders_chains req0 in
  if negb (isEmpty errors) then ret (mkResponse 400 (JsonErrors errors))
  else
    let id := params_id req in
    try_catch
      (result <- queryDB "DELETE FROM orders WHERE id=?" (Some [Str id]) ;;
       ret (mkResponse 200 (JsonMsg "Order deleted" (affectedRows result))))
      (fun err => ret (mkResponse 500 (JsonError err))).

Definition get_student (req : request) : M response :=
  try_catch
    (rows <- queryDB "SELECT * FROM student;" None ;;
     ret (mkResponse 200 (JsonResult rows)))
    (fun err => ret (mkResponse 500 (JsonError err))).

Definition get_foods (req : request) : M response :=
  try_catch
    (rows <- queryDB "SELECT * FROM foods;" None ;;
     ret (mkResponse 200 (JsonResult rows)))
    (fun err => ret (mkResponse 500 (JsonError err))).

Definition get_root (req : request) : M response :=
  ret (mkResponse 200 (Text "Hello from Express + MariaDB API")).

Definition handle (r : route) : request -> M response :=
  match r with
  | GET_orders => get_orders
  | POST_orders => post_orders
  | PATCH_orders_id => patch_orders
  | PUT_orders_id => put_orders
  | DELETE_orders_id => delete_orders
  | GET_student => get_student
  | GET_foods => get_foods
  | GET_root => get_root
  end.

(** The shared shape of the database routes. *)
Definition calling (sql : string) (values : option (list value))
    (ok : query_result -> response) : M response :=
  try_catch
    (result <- queryDB sql values ;;
     ret (ok result))
    (fun err => ret (mkResponse 500 (JsonError err))).

(** The requests of a session are handled one after the other: each
    handler runs to its answer before the next request starts.  Requests
    that overlap at an [await] are not among these sessions. *)
Fixpoint serve (reqs : list (route * request)) (st : state W)
    : list (outcome response) * state W :=
  match reqs with
  | [] => ([], st)
  | (r, req) :: rest =>
      let (o, st1) := handle r req st in
      let (os, st2) := serve rest st1 in
      (o :: os, st2)
  end.

End WithDriver.

Arguments ret {W A}.
Arguments bind {W A B}.
Arguments try_catch {W A}.
Arguments getConnection {W}.
Arguments query {W}.
Arguments release {W}.
Arguments finally_release {W} d {A}.
Arguments queryDB {W}.
Arguments calling {W}.
Arguments get_orders {W}.
Arguments post_orders {W}.
Arguments answering {W}.
Arguments patch_handler {W}.
Arguments patch_orders {W}.
Arguments put_orders {W}.
Arguments delete_orders {W}.
Arguments get_student {W}.
Arguments get_foods {W}.
Arguments get_root {W}.
Arguments handle {W}.
Arguments serve {W}.

End Server.
Import Server.

(** ** A reference driver: a MariaDB server holding the [orders] table

    The database is outside the program.  This driver describes what a
    MariaDB server answers to the statements the service issues: the text
    protocol knows no [?] marker, so a statement that carries one and
    arrives without values is a syntax error, and so is an UPDATE whose
    SET clause is empty.  With values bound, INSERT, UPDATE and DELETE act
    on the table as usual. *)

Module MariaDB.
Import Validator.

Record order : Type := mkOrder {
  o_id : Z;
  o_name : string;
  o_quantity : Z
}.

Record database : Type := mkDatabase {
  orders : list order;
  auto_increment : Z;
  student : list row;
  foods : list row;
  reachable : bool
}.

Definition order_row (o : order) : row :=
  [("id", Num (o_id o)); ("name", Str (o_name o)); ("quantity", Num (o_quantity o))].

Definition ER_PARSE_ERROR : string := "You have an error in your SQL syntax".
Definition ER_WRONG_VALUE : string := "Incorrect value for column".
Definition ER_CONNECTION : string := "connect ECONNREFUSED".

Fixpoint has_placeholder (sql : string) : bool :=
  match sql with
  | EmptyString => false
  | String c r => (Ascii.eqb c "?" || has_placeholder r)%bool
  end.

(** Values as the columns take them. *)
Definition column_text (v : value) : option string :=
  match v with
  | Str s => Some s
  | Num z => Some (string_of_Z z)
  | _ => None
  end.

Definition column_int (v : value) : option Z :=
  match v with
  | Num z => Some z
  | Str s => if int_syntax s then Some (int_value s) else None
  | _ => None
  end.

Definition matching (id : Z) (db : database) : Z :=
  Z.of_nat (List.length (filter (fun o => o_id o =? id) (orders db))).

Definition with_orders (db : database) (os : list order) (next : Z) : database :=
  mkDatabase os next (student db) (foods db) (reachable db).

Definition update_where (id : Z) (f : order -> order) (db : database) : database :=
  with_orders db
    (map (fun o => if o_id o =? id then f o else o) (orders db))
    (auto_increment db).

Definition wrong_value (db : database) : outcome query_result * database :=
  (Thrown ER_WRONG_VALUE, db).

(** A statement executed with its values bound. *)
Definition exec_bound (sql : string) (values : list value) (db : database)
    : outcome query_result * database :=
  if (sql =? "INSERT INTO orders(name, quantity) VALUES (?, ?)")%string then
    match values with
    | [n; q] =>
        match column_text n, column_int q with
        | Some name, Some quantity =>
            let id := auto_increment db in
            (Returned (OkPacket 1 id),
             with_orders db (orders db ++ [mkOrder id name quantity])%list (id + 1))
        | _, _ => wrong_value db
        end
    | _ => (Thrown ER_PARSE_ERROR, db)
    end
  else if (sql =? "UPDATE orders SET name=?, quantity=? WHERE id=?")%string then
    match values with
    | [n; q; i] =>
        match column_text n, column_int q, column_int i with
        | Some name, Some quantity, Some id =>
            (Returned (OkPacket (matching id db) 0),
             update_where id (fun o => mkOrder (o_id o) name quantity) db)
        | _, _, _ => wrong_value db
        end
    | _ => (Thrown ER_PARSE_ERROR, db)
    end
  else if (sql =? "UPDATE orders SET name=? WHERE id=?")%string then
    match values with
    | [n; i] =>
        match column_text n, column_int i with
        | Some name, Some id =>
            (Returned (OkPacket (matching id db) 0),
             update_where id (fun o => mkOrder (o_id o) name (o_quantity o)) db)
        | _, _ => wrong_value db
        end
    | _ => (Thrown ER_PARSE_ERROR, db)
    end
  else if (sql =? "UPDATE orders SET quantity=? WHERE id=?")%string then
    match values with
    | [q; i] =>
        match column_int q, column_int i with
        | Some quantity, Some id =>
            (Returned (OkPacket (matching id db) 0),
             update_where id (fun o => mkOrder (o_id o) (o_name o) quantity) db)
        | _, _ => wrong_value db
        end
    | _ => (Thrown ER_PARSE_ERROR, db)
    end
  else if (sql =? "DELETE FROM orders WHERE id=?")%string then
    match values with
    | [i] =>
        match column_int i with
        | Some id =>
            (Returned (OkPacket (matching id db) 0),
             with_orders db (filter (fun o => negb (o_id o =? id)) (orders db))
               (auto_increment db))
        | None => wrong_value db
        end
    | _ => (Thrown ER_PARSE_ERROR, db)
    end
  else (Thrown ER_PARSE_ERROR, db).

Definition exec (sql : string) (values : option (list value)) (db : database)
    : outcome query_result * database :=
  if (sql =? "SELECT * FROM orders;")%string then
    (Returned (Rows (map order_row (orders db))), db)
  else if (sql =? "SELECT * FROM student;")%string then
    (Returned (Rows (student db)), db)
  else if (sql =? "SELECT * FROM foods;")%string then
    (Returned (Rows (foods db)), db)
  else
    match values with
    | Some vs => exec_bound sql vs db
    | None =>
        if has_placeholder sql then (Thrown ER_PARSE_ERROR, db)
        else exec_bound sql [] db
    end.

Definition mariadb : driver database :=
  mkDriver database
    (fun db => if reachable db then (Returned 0%nat, db)
               else (Thrown ER_CONNECTION, db))
    (fun _ sql values db => exec sql values db)
    (fun _ db => db).

(** Every order row has a non-empty name and a quantity of at least 1. *)
Definition well_formed (o : order) : Prop :=
  o_name o <> EmptyString /\ 1 <= o_quantity o.

Definition fresh (os : list order) : database :=
  mkDatabase os (1 + fold_right Z.max 0 (map o_id os)) [] [] true.

Definition start (os : list order) : state database := mkState (fresh os) [].

End MariaDB.

(** ** Sample requests and tables *)

Module Sample.
Import MariaDB.

(** POST /orders with body [{ name: "Widget", quantity: 5 }]. *)
Definition widget : request := mkRequest EmptyString (Str "Widget") (Num 5).

(** PUT /orders/1 and PUT /orders/2 with body [{ name: "x", quantity: 3 }]. *)
Definition put_1 : request := mkRequest "1" (Str "x") (Num 3).
Definition put_2 : request := mkRequest "2" (Str "x") (Num 3).

(** PATCH /orders/1 with body [{ name: "   " }]. *)
Definition blank_name : request := mkRequest "1" (Str "   ") Undefined.

(** PATCH /orders/abc with body [{ name: "   " }]. *)
Definition blank_name_bad_id : request := mkRequest "abc" (Str "   ") Undefined.

(** PATCH /orders/1 with body [{ name: " <b> ", quantity: "7" }]. *)
Definition bold_7 : request := mkRequest "1" (Str " <b> ") (Str "7").

(** A table with the one row [{ id: 1, name: "a", quantity: 2 }]. *)
Definition one_row : list order := [mkOrder 1 "a" 2].

(** A server that refuses connections. *)
Definition offline : state database :=
  mkState (mkDatabase [] 1 [] [] false) [].

End Sample.

(** ** Shapes of traces, names and sessions *)

Module Shape.
Import Validator MariaDB.

(** An executor that sends nothing and throws what it was called with:
    the statement followed by the values, so that a handler's answer
    shows the call it made. *)
Definition show_call {W : Type} (sql : string) (values : option (list value))
    : M W query_result :=
  fun st =>
    (Thrown (sql ++ " [" ++
             join ", " (map toString (match values with Some vs => vs | None => [] end))
             ++ "]"),
     st).

(** The eight characters [escape] replaces, and those of them other
    than the ampersand, which every replacement starts with. *)
Definition special (c : ascii) : bool :=
  match nat_of_ascii c with
  | 38%nat | 34%nat | 39%nat | 60%nat | 62%nat | 47%nat | 92%nat | 96%nat => true
  | _ => false
  end.

Definition markup (c : ascii) : bool :=
  (special c && negb (Ascii.eqb c "&"))%bool.

Fixpoint free_of (p : ascii -> bool) (s : string) : bool :=
  match s with
  | EmptyString => true
  | String c r => (negb (p c) && free_of p r)%bool
  end.

(** A string that does not start with white space. *)
Definition head_ok (s : string) : bool :=
  match s with
  | EmptyString => true
  | String c _ => negb (is_space c)
  end.

(** The requests that never get as far as [queryDB]: those to the root
    route and those whose validation result is not empty. *)
Definition quiet (r : route) (req : request) : bool :=
  match r with
  | GET_root => true
  | _ => negb (isEmpty (validationResult r req))
  end.

Definition loud (entry : route * request) : bool :=
  negb (quiet (fst entry) (snd entry)).

(** The three listing routes with the statement each one sends. *)
Definition listings : list (route * string) :=
  [ (GET_orders, "SELECT * FROM orders;");
    (GET_student, "SELECT * FROM student;");
    (GET_foods, "SELECT * FROM foods;") ].

(** A server whose [student] table holds one row. *)
Definition campus : state database :=
  mkState
    (mkDatabase [] 1 [[("id", Num 1); ("name", Str "Ada")]] [] true) [].

(** POST /orders with body [{ quantity: 5 }], and PATCH /orders/1 with
    body [{ quantity: null }]. *)
Definition no_name : request := mkRequest EmptyString Undefined (Num 5).
Definition null_quantity : request := mkRequest "1" Undefined Null.

End Shape.

(** * Properties *)

Import Validator MariaDB Sample.

(** ** String facts *)

Lemma escape_char_nonempty c : escape_char c <> EmptyString.
Proof.
  destruct c as [[] [] [] [] [] [] [] []]; discriminate.
Qed.

Lemma escape_nonempty s : s <> EmptyString -> escape s <> EmptyString.
Proof.
  destruct s as [|c r]; [congruence|]. intros _. simpl.
  destruct (escape_char c) eqn:E; [now apply escape_char_nonempty in E|].
  discriminate.
Qed.

Lemma escape_eqb_empty s : (escape s =? EmptyString)%string = (s =? EmptyString)%string.
Proof.
  destruct s as [|c r]; [reflexivity|].
  pose proof (escape_nonempty (String c r)) as H.
  destruct (escape (String c r)); [exfalso; now apply H|reflexivity].
Qed.

Lemma isLength_1 s : isLength 1 s = true -> s <> EmptyString.
Proof.
  unfold isLength. destruct s; simpl; congruence.
Qed.

(** Reading back the decimal rendering of an integer. *)

Ltac eval_digit :=
  match goal with
  | |- context [Z.of_nat (nat_of_ascii ?c)] =>
      let v := eval vm_compute in (Z.of_nat (nat_of_ascii c)) in
      change (Z.of_nat (nat_of_ascii c)) with v
  end.

Lemma digits_value_acc d acc :
  digits_value (Zpos acc) (NilEmpty.string_of_uint d) = Zpos (Pos.of_uint_acc d acc).
Proof.
  revert acc.
  induction d; intro acc;
    cbn [NilEmpty.string_of_uint digits_value Pos.of_uint_acc];
    try reflexivity;
    rewrite <- IHd; f_equal; eval_digit; lia.
Qed.

Lemma digits_value_uint d :
  digits_value 0 (NilEmpty.string_of_uint d) = Z.of_uint d.
Proof.
  unfold Z.of_uint.
  induction d;
    cbn [NilEmpty.string_of_uint digits_value Pos.of_uint Z.of_N];
    try reflexivity; eval_digit;
    first [ exact IHd | rewrite <- digits_value_acc; f_equal ].
Qed.

Lemma int_value_unsigned c r :
  is_digit c = true -> int_value (String c r) = digits_value 0 (String c r).
Proof.
  destruct c as [[] [] [] [] [] [] [] []]; intros H; try discriminate H; reflexivity.
Qed.

Lemma string_of_uint_head d :
  d <> Decimal.Nil ->
  exists c r, NilEmpty.string_of_uint d = String c r /\ is_digit c = true.
Proof.
  destruct d; [congruence | ..]; intros _; simpl; eauto.
Qed.

Lemma int_value_string_of_Z z : int_value (string_of_Z z) = z.
Proof.
  unfold string_of_Z.
  rewrite <- (DecimalZ.of_to z) at 2.
  destruct (Z.to_int z) as [d|d];
    unfold NilZero.string_of_int, NilZero.string_of_uint, Z.of_int.
  - destruct (Decimal.uint_eq_dec d Decimal.Nil) as [->|Hd]; [reflexivity|].
    destruct (string_of_uint_head d Hd) as (c & r & E & Hc).
    replace (match d with Decimal.Nil => "0" | _ => NilEmpty.string_of_uint d end)
      with (NilEmpty.string_of_uint d) by (destruct d; congruence).
    rewrite <- digits_value_uint, E. now apply int_value_unsigned.
  - unfold int_value. cbn [Ascii.eqb Bool.eqb]. f_equal.
    destruct (Decimal.uint_eq_dec d Decimal.Nil) as [->|Hd]; [reflexivity|].
    replace (match d with Decimal.Nil => "0" | _ => NilEmpty.string_of_uint d end)
      with (NilEmpty.string_of_uint d) by (destruct d; congruence).
    apply digits_value_uint.
Qed.

Lemma all_digits_uint d : all_digits (NilEmpty.string_of_uint d) = true.
Proof. induction d; simpl; auto. Qed.

Lemma nonempty_digits_uint d : nonempty_digits (NilZero.string_of_uint d) = true.
Proof.
  unfold NilZero.string_of_uint, nonempty_digits.
  destruct d; try reflexivity;
    cbn [NilEmpty.string_of_uint all_digits];
    now rewrite all_digits_uint.
Qed.

Lemma int_syntax_string_of_Z z : int_syntax (string_of_Z z) = true.
Proof.
  unfold string_of_Z, NilZero.string_of_int.
  destruct (Z.to_int z) as [d|d].
  - pose proof (nonempty_digits_uint d) as H.
    unfold NilZero.string_of_uint in *.
    destruct d; try reflexivity; exact H.
  - cbn [int_syntax Ascii.eqb Bool.eqb orb]. apply nonempty_digits_uint.
Qed.

(** On a number, [isInt] is the comparison with the minimum. *)
Lemma isInt_number min z :
  isInt min (toString (Num z)) =
    match min with None => true | Some m => m <=? z end.
Proof.
  unfold isInt. cbn [toString].
  now rewrite int_syntax_string_of_Z, int_value_string_of_Z.
Qed.

(** A quantity that passes [isInt({ min: 1 })] is truthy and denotes an
    integer of at least 1. *)
Lemma isInt_min1_truthy q :
  isInt (Some 1) (toString q) = true -> truthy q = true.
Proof.
  unfold isInt. intros H. apply andb_true_iff in H as [Hs Hm].
  destruct q as [| |[]|z|s]; try discriminate Hs.
  - cbn [toString] in Hm. rewrite int_value_string_of_Z in Hm.
    apply Z.leb_le in Hm. simpl. destruct (Z.eqb_spec z 0); [lia|reflexivity].
  - destruct s; [discriminate Hs|reflexivity].
Qed.

Lemma isInt_min1_column q :
  isInt (Some 1) (toString q) = true ->
  exists z, column_int q = Some z /\ 1 <= z.
Proof.
  unfold isInt. intros H. apply andb_true_iff in H as [Hs Hm].
  apply Z.leb_le in Hm.
  destruct q as [| |[]|z|s]; try discriminate Hs.
  - cbn [toString] in Hm. rewrite int_value_string_of_Z in Hm.
    exists z. split; [reflexivity|exact Hm].
  - cbn [toString] in Hs, Hm. exists (int_value s).
    unfold column_int. now rewrite Hs.
Qed.

(** ** What the chains of each route compute *)

Lemma check_nil f ok v : check f ok v = [] -> ok = true.
Proof. unfold check. destruct ok; [reflexivity|discriminate]. Qed.

Lemma check_other_field f g ok v :
  f <> g -> Forall (fun e => e_field e <> g) (check f ok v).
Proof.
  intros H. unfold check. destruct ok; repeat constructor. exact H.
Qed.

Lemma post_validation req :
  let name := trim (toString (body_name req)) in
  run_chains post_orders_chains req =
    (mkRequest (params_id req) (Str (escape name)) (body_quantity req),
     (check BodyName (isLength 1 name) (Str name) ++
      check BodyQuantity (isInt (Some 1) (toString (body_quantity req)))
        (body_quantity req))%list).
Proof.
  destruct req as [id name quantity]. unfold check. cbv zeta.
  unfold run_chains, post_orders_chains. simpl.
  rewrite !app_nil_r. reflexivity.
Qed.

Lemma put_validation req :
  let name := trim (toString (body_name req)) in
  run_chains put_orders_chains req =
    (mkRequest (params_id req) (Str (escape name)) (body_quantity req),
     (check ParamId (isInt None (params_id req)) (Str (params_id req)) ++
      check BodyName (isLength 1 name) (Str name) ++
      check BodyQuantity (isInt (Some 1) (toString (body_quantity req)))
        (body_quantity req))%list).
Proof.
  destruct req as [id name quantity]. unfold check. cbv zeta.
  unfold run_chains, put_orders_chains. simpl.
  rewrite !app_nil_r, <- app_assoc. reflexivity.
Qed.

Lemma delete_validation req :
  run_chains delete_orders_chains req =
    (req, check ParamId (isInt None (params_id req)) (Str (params_id req))).
Proof.
  destruct req as [id name quantity]. unfold check.
  unfold run_chains, delete_orders_chains. simpl.
  rewrite !app_nil_r. reflexivity.
Qed.

Lemma patch_validation req :
  run_chains patch_orders_chains req =
    (mkRequest (params_id req) (patch_name (body_name req)) (body_quantity req),
     (check ParamId (isInt None (params_id req)) (Str (params_id req)) ++
      patch_quantity_errors (body_quantity req))%list).
Proof.
  destruct req as [id name quantity].
  unfold check, patch_quantity_errors, patch_name.
  unfold run_chains, patch_orders_chains.
  destruct name, quantity; simpl; rewrite ?app_nil_r; reflexivity.
Qed.

Lemma sanitized_post req :
  sanitized POST_orders req =
    mkRequest (params_id req)
      (Str (escape (trim (toString (body_name req))))) (body_quantity req).
Proof. unfold sanitized, chains_of. now rewrite post_validation. Qed.

Lemma sanitized_put req :
  sanitized PUT_orders_id req =
    mkRequest (params_id req)
      (Str (escape (trim (toString (body_name req))))) (body_quantity req).
Proof. unfold sanitized, chains_of. now rewrite put_validation. Qed.

Lemma sanitized_patch req :
  sanitized PATCH_orders_id req =
    mkRequest (params_id req) (patch_name (body_name req)) (body_quantity req).
Proof. unfold sanitized, chains_of. now rewrite patch_validation. Qed.

Lemma sanitized_delete req : sanitized DELETE_orders_id req = req.
Proof. unfold sanitized, chains_of. now rewrite delete_validation. Qed.

Lemma truthy_patch_name name :
  truthy (patch_name name) =
    (if value_eq_dec name Undefined then false
     else negb (trim (toString name) =? EmptyString)%string).
Proof.
  destruct name as [| |b|z|s]; cbn [patch_name truthy];
    try reflexivity;
    (destruct (value_eq_dec _ Undefined) as [E|_]; [discriminate E|]);
    now rewrite escape_eqb_empty.
Qed.

Lemma post_valid req :
  validationResult POST_orders req = [] ->
  escape (trim (toString (body_name req))) <> EmptyString
  /\ exists z, column_int (body_quantity req) = Some z /\ 1 <= z.
Proof.
  unfold validationResult, chains_of. rewrite post_validation.
  cbn [snd]. intros H.
  apply app_eq_nil in H as [Hn Hq].
  apply check_nil in Hn, Hq.
  apply isLength_1 in Hn.
  split; [now apply escape_nonempty|now apply isInt_min1_column].
Qed.

Lemma put_valid req :
  validationResult PUT_orders_id req = [] ->
  escape (trim (toString (body_name req))) <> EmptyString
  /\ exists z, column_int (body_quantity req) = Some z /\ 1 <= z.
Proof.
  unfold validationResult, chains_of. rewrite put_validation.
  cbn [snd]. intros H.
  apply app_eq_nil in H as [_ H].
  apply app_eq_nil in H as [Hn Hq].
  apply check_nil in Hn, Hq.
  apply isLength_1 in Hn.
  split; [now apply escape_nonempty|now apply isInt_min1_column].
Qed.

Lemma patch_valid req :
  validationResult PATCH_orders_id req = [] ->
  (truthy (patch_name (body_name req)) = true ->
     exists s, patch_name (body_name req) = Str s /\ s <> EmptyString)
  /\ (truthy (body_quantity req) = true ->
      exists z, column_int (body_quantity req) = Some z /\ 1 <= z).
Proof.
  unfold validationResult, chains_of. rewrite patch_validation.
  cbn [snd]. intros H.
  apply app_eq_nil in H as [_ Hq]. split.
  - destruct (body_name req); cbn [patch_name truthy]; try discriminate;
      intros Ht; eexists; (split; [reflexivity|]);
      intros E; rewrite E in Ht; discriminate Ht.
  - intros Ht. unfold patch_quantity_errors in Hq.
    destruct (body_quantity req) eqn:E; try discriminate Ht;
      apply check_nil in Hq; now apply isInt_min1_column.
Qed.

Lemma app_nil_iff {A : Type} (l1 l2 : list A) :
  (l1 ++ l2)%list = [] <-> l1 = [] /\ l2 = [].
Proof.
  split; [apply app_eq_nil|]. now intros [-> ->].
Qed.

Lemma check_nil_iff f ok v : check f ok v = [] <-> ok = true.
Proof.
  unfold check. destruct ok; split; try reflexivity; discriminate.
Qed.

Lemma isLength_1_iff s : isLength 1 s = true <-> s <> EmptyString.
Proof.
  unfold isLength. destruct s; simpl; split; congruence.
Qed.

(** The requests POST /orders and PUT /orders/{id} accept. *)
Lemma post_passes_iff req :
  validationResult POST_orders req = [] <->
  trim (toString (body_name req)) <> EmptyString
  /\ isInt (Some 1) (toString (body_quantity req)) = true.
Proof.
  unfold validationResult, chains_of. rewrite post_validation. cbn [snd].
  now rewrite app_nil_iff, !check_nil_iff, isLength_1_iff.
Qed.

Lemma put_passes_iff req :
  validationResult PUT_orders_id req = [] <->
  isInt None (params_id req) = true
  /\ trim (toString (body_name req)) <> EmptyString
  /\ isInt (Some 1) (toString (body_quantity req)) = true.
Proof.
  unfold validationResult, chains_of. rewrite put_validation. cbn [snd].
  now rewrite !app_nil_iff, !check_nil_iff, isLength_1_iff.
Qed.

Lemma patch_name_supplied name :
  name <> Undefined -> patch_name name = Str (escape (trim (toString name))).
Proof. destruct name; [congruence|reflexivity..]. Qed.

Lemma patch_errors_not_name req :
  Forall (fun e => e_field e <> BodyName) (validationResult PATCH_orders_id req).
Proof.
  unfold validationResult, chains_of. rewrite patch_validation. cbn [snd].
  apply Forall_app. split.
  - apply check_other_field. discriminate.
  - unfold patch_quantity_errors.
    destruct (body_quantity req);
      first [apply Forall_nil | apply check_other_field; discriminate].
Qed.

Lemma patch_passes req :
  isInt None (params_id req) = true ->
  body_quantity req = Undefined
  \/ isInt (Some 1) (toString (body_quantity req)) = true ->
  validationResult PATCH_orders_id req = [].
Proof.
  intros Hid Hq. unfold validationResult, chains_of.
  rewrite patch_validation. cbn [snd].
  unfold check at 1. rewrite Hid. cbn [app].
  unfold patch_quantity_errors, check.
  destruct Hq as [->|Hq]; [reflexivity|].
  rewrite Hq. destruct (body_quantity req); reflexivity.
Qed.

Lemma bad_id_invalid r req :
  r = PATCH_orders_id \/ r = PUT_orders_id \/ r = DELETE_orders_id ->
  isInt None (params_id req) = false ->
  validationResult r req <> [].
Proof.
  intros Hr Hid. unfold validationResult, chains_of.
  destruct Hr as [->|[->| ->]];
    rewrite ?patch_validation, ?put_validation, ?delete_validation;
    cbn [snd]; unfold check; rewrite Hid; discriminate.
Qed.

(** ** The executor and the handlers over any driver *)

Section AnyDriver.

Variable W : Type.
Variable d : driver W.

Lemma queryDB_unfold sql values (st : state W) :
  queryDB d sql values st =
    match pool_getConnection d (world st) with
    | (Thrown e, w) => (Thrown e, mkState w (trace st))
    | (Returned c, w) =>
        (fst (conn_query d c sql None w),
         mkState (conn_release d c (snd (conn_query d c sql None w)))
           (trace st ++ [Acquire c; Query c sql None; Release c]))
    end.
Proof.
  unfold queryDB, getConnection.
  destruct (pool_getConnection d (world st)) as [[c|e] w]; [|reflexivity].
  unfold finally_release, query, release. cbn [world trace].
  destruct (conn_query d c sql None w) as [r w']. cbn [fst snd world trace].
  rewrite <- !app_assoc. reflexivity.
Qed.

Lemma calling_unfold sql values ok (st : state W) :
  calling d sql values ok st =
    match queryDB d sql values st with
    | (Returned result, st') => (Returned (ok result), st')
    | (Thrown e, st') => (Returned (mkResponse 500 (JsonError e)), st')
    end.
Proof.
  unfold calling, try_catch, bind, ret.
  destruct (queryDB d sql values st) as [[result|e] st']; reflexivity.
Qed.

(** Every handler is its validation gate followed by its one call. *)
Lemma handle_call r req (st : state W) :
  handle d r req st =
    if isEmpty (validationResult r req) then
      match call_of r (sanitized r req) with
      | Some (sql, values, ok) => calling d sql values ok st
      | None =>
          (Returned (mkResponse 200 (Text "Hello from Express + MariaDB API")), st)
      end
    else (Returned (mkResponse 400 (JsonErrors (validationResult r req))), st).
Proof.
  destruct r; try reflexivity;
    unfold handle, post_orders, patch_orders, patch_handler, put_orders,
      delete_orders, validationResult, sanitized, chains_of;
    destruct (run_chains _ req) as [req' errors]; cbn [fst snd];
    destruct errors; try reflexivity.
  cbn [negb isEmpty call_of].
  unfold patch_sql, patch_updates, patch_values, push.
  destruct (truthy (body_name req')), (truthy (body_quantity req')); reflexivity.
Qed.

(** No handler lets an error escape. *)
Lemma handle_returns r req (st : state W) :
  exists resp st', handle d r req st = (Returned resp, st').
Proof.
  rewrite handle_call.
  destruct (isEmpty _); [|eauto].
  destruct (call_of _ _) as [[[sql values] ok]|]; [|eauto].
  rewrite calling_unfold.
  destruct (queryDB d sql values st) as [[result|e] st']; eauto.
Qed.

(** On success the answer is the route's own, built from the result. *)
Lemma database_success r req (st st' : state W) sql values ok result :
  validationResult r req = [] ->
  call_of r (sanitized r req) = Some (sql, values, ok) ->
  queryDB d sql values st = (Returned result, st') ->
  handle d r req st = (Returned (ok result), st').
Proof.
  intros Hv Hc Hq.
  rewrite handle_call, Hv, Hc, calling_unfold, Hq. reflexivity.
Qed.

Lemma calling_trace sql values ok (st : state W) c w :
  pool_getConnection d (world st) = (Returned c, w) ->
  trace (snd (calling d sql values ok st)) =
    (trace st ++ [Acquire c; Query c sql None; Release c])%list.
Proof.
  intros H. rewrite calling_unfold, queryDB_unfold, H.
  destruct (conn_query d c sql None w) as [[result|e] w']; reflexivity.
Qed.

Lemma queryDB_trace sql values (st : state W) :
  exists evs,
    trace (snd (queryDB d sql values st)) = (trace st ++ evs)%list
    /\ existsb bound_values evs = false.
Proof.
  rewrite queryDB_unfold.
  destruct (pool_getConnection d (world st)) as [[c|e] w]; cbn [snd trace].
  - eexists; split; reflexivity.
  - exists []. now rewrite app_nil_r.
Qed.

(** Whatever a handler passes to [queryDB], no call that reaches the
    driver carries values. *)
Lemma handlers_bind_no_values r req (st : state W) :
  exists evs,
    trace (snd (handle d r req st)) = (trace st ++ evs)%list
    /\ existsb bound_values evs = false.
Proof.
  assert (Hnil : exists evs, trace st = (trace st ++ evs)%list
                             /\ existsb bound_values evs = false)
    by (exists []; now rewrite app_nil_r).
  rewrite handle_call.
  destruct (isEmpty _); [|exact Hnil].
  destruct (call_of _ _) as [[[sql values] ok]|]; [|exact Hnil].
  rewrite calling_unfold.
  destruct (queryDB_trace sql values st) as (evs & Ht & Hb).
  destruct (queryDB d sql values st) as [[result|e] st']; eauto.
Qed.

(** The state a valid POST, PUT or DELETE leaves behind is the same for
    every body and id: the driver is shown the statement text only. *)
Lemma driver_cannot_see_values r req1 req2 (st : state W) :
  r = POST_orders \/ r = PUT_orders_id \/ r = DELETE_orders_id ->
  validationResult r req1 = [] ->
  validationResult r req2 = [] ->
  snd (handle d r req1 st) = snd (handle d r req2 st).
Proof.
  intros Hr H1 H2. rewrite !handle_call, H1, H2. cbn [isEmpty].
  destruct Hr as [->|[->| ->]]; cbn [call_of];
    rewrite !calling_unfold, !queryDB_unfold;
    destruct (pool_getConnection d (world st)) as [[c|e] w];
    try reflexivity;
    destruct (conn_query d c _ None w) as [[result|e] w']; reflexivity.
Qed.

Lemma releases_acquired c sql :
  releases c [Acquire c; Query c sql None; Release c] = 1%nat.
Proof. simpl. now rewrite Nat.eqb_refl. Qed.

Lemma patch_orders_calling req (st : state W) :
  validationResult PATCH_orders_id req = [] ->
  let name := patch_name (body_name req) in
  let quantity := body_quantity req in
  let id := Str (params_id req) in
  patch_orders d req st =
    match truthy name, truthy quantity with
    | true, true =>
        calling d "UPDATE orders SET name=?, quantity=? WHERE id=?"
          (Some [name; quantity; id]) updated st
    | true, false =>
        calling d "UPDATE orders SET name=? WHERE id=?"
          (Some [name; id]) updated st
    | false, true =>
        calling d "UPDATE orders SET quantity=? WHERE id=?"
          (Some [quantity; id]) updated st
    | false, false =>
        calling d "UPDATE orders SET  WHERE id=?" (Some [id]) updated st
    end.
Proof.
  intros Hv.
  pose proof (handle_call PATCH_orders_id req st) as Hh.
  cbn [handle] in Hh. rewrite Hh, Hv, sanitized_patch. clear Hh.
  cbn [isEmpty call_of body_name body_quantity params_id].
  unfold patch_sql, patch_updates, patch_values.
  destruct (truthy (patch_name (body_name req))), (truthy (body_quantity req));
    reflexivity.
Qed.

(** The same for the handler body over any executor: the statement and
    the value array are the ones passed to it. *)
Lemma patch_handler_answering
    (execute : string -> option (list value) -> M W query_result)
    req (st : state W) :
  validationResult PATCH_orders_id req = [] ->
  let name := patch_name (body_name req) in
  let quantity := body_quantity req in
  let id := Str (params_id req) in
  patch_handler execute req st =
    match truthy name, truthy quantity with
    | true, true =>
        answering execute "UPDATE orders SET name=?, quantity=? WHERE id=?"
          (Some [name; quantity; id]) updated st
    | true, false =>
        answering execute "UPDATE orders SET name=? WHERE id=?"
          (Some [name; id]) updated st
    | false, true =>
        answering execute "UPDATE orders SET quantity=? WHERE id=?"
          (Some [quantity; id]) updated st
    | false, false =>
        answering execute "UPDATE orders SET  WHERE id=?" (Some [id]) updated st
    end.
Proof.
  unfold validationResult, chains_of. intros Hv.
  unfold patch_handler.
  rewrite patch_validation in *. cbn [snd] in Hv. rewrite Hv.
  cbn [negb isEmpty body_name body_quantity params_id].
  unfold push.
  destruct (truthy (patch_name (body_name req))), (truthy (body_quantity req));
    reflexivity.
Qed.

End AnyDriver.

(** ** The reference driver *)

Lemma exec_bound_nil sql db : snd (exec_bound sql [] db) = db.
Proof.
  unfold exec_bound.
  repeat match goal with
         | |- context [if ?b then _ else _] => destruct b
         end; reflexivity.
Qed.

(** A statement executed without values never changes the table. *)
Lemma exec_unbound sql db : snd (exec sql None db) = db.
Proof.
  unfold exec.
  repeat match goal with
         | |- context [if ?b then _ else _] => destruct b
         end; try reflexivity.
  apply exec_bound_nil.
Qed.

Lemma handle_mariadb_world r req st :
  world (snd (handle mariadb r req st)) = world st.
Proof.
  rewrite handle_call.
  destruct (isEmpty _); [|reflexivity].
  destruct (call_of _ _) as [[[sql values] ok]|]; [|reflexivity].
  rewrite calling_unfold, queryDB_unfold.
  cbn [mariadb pool_getConnection conn_query conn_release].
  destruct (reachable (world st)); cbn [fst snd].
  - pose proof (exec_unbound sql (world st)) as E.
    destruct (exec sql None (world st)) as [[result|e] db];
      cbn [fst snd world] in *; exact E.
  - reflexivity.
Qed.

Lemma serve_mariadb_world reqs st :
  world (snd (serve mariadb reqs st)) = world st.
Proof.
  revert st. induction reqs as [|[r req] rest IH]; intro st; [reflexivity|].
  cbn [serve].
  pose proof (handle_mariadb_world r req st) as Hh.
  destruct (handle mariadb r req st) as [o st1].
  specialize (IH st1).
  destruct (serve mariadb rest st1) as [os st2].
  cbn [snd] in *. congruence.
Qed.

Lemma exec_insert n q db :
  exec "INSERT INTO orders(name, quantity) VALUES (?, ?)" (Some [n; q]) db =
    match column_text n, column_int q with
    | Some name, Some quantity =>
        (Returned (OkPacket 1 (auto_increment db)),
         with_orders db
           (orders db ++ [mkOrder (auto_increment db) name quantity])%list
           (auto_increment db + 1))
    | _, _ => wrong_value db
    end.
Proof. reflexivity. Qed.

Lemma exec_replace n q i db :
  exec "UPDATE orders SET name=?, quantity=? WHERE id=?" (Some [n; q; i]) db =
    match column_text n, column_int q, column_int i with
    | Some name, Some quantity, Some id =>
        (Returned (OkPacket (matching id db) 0),
         update_where id (fun o => mkOrder (o_id o) name quantity) db)
    | _, _, _ => wrong_value db
    end.
Proof. reflexivity. Qed.

Lemma exec_set_name n i db :
  exec "UPDATE orders SET name=? WHERE id=?" (Some [n; i]) db =
    match column_text n, column_int i with
    | Some name, Some id =>
        (Returned (OkPacket (matching id db) 0),
         update_where id (fun o => mkOrder (o_id o) name (o_quantity o)) db)
    | _, _ => wrong_value db
    end.
Proof. reflexivity. Qed.

Lemma exec_set_quantity q i db :
  exec "UPDATE orders SET quantity=? WHERE id=?" (Some [q; i]) db =
    match column_int q, column_int i with
    | Some quantity, Some id =>
        (Returned (OkPacket (matching id db) 0),
         update_where id (fun o => mkOrder (o_id o) (o_name o) quantity) db)
    | _, _ => wrong_value db
    end.
Proof. reflexivity. Qed.

Lemma exec_delete i db :
  exec "DELETE FROM orders WHERE id=?" (Some [i]) db =
    match column_int i with
    | Some id =>
        (Returned (OkPacket (matching id db) 0),
         with_orders db (filter (fun o => negb (o_id o =? id)) (orders db))
           (auto_increment db))
    | None => wrong_value db
    end.
Proof. reflexivity. Qed.

Lemma exec_empty_set values db :
  exec "UPDATE orders SET  WHERE id=?" values db = (Thrown ER_PARSE_ERROR, db).
Proof. destruct values; reflexivity. Qed.

(** With its values bound, an INSERT stores the row it is given. *)
Lemma exec_insert_stores name quantity db :
  exec "INSERT INTO orders(name, quantity) VALUES (?, ?)"
    (Some [Str name; Num quantity]) db =
    (Returned (OkPacket 1 (auto_increment db)),
     with_orders db
       (orders db ++ [mkOrder (auto_increment db) name quantity])%list
       (auto_increment db + 1)).
Proof. reflexivity. Qed.

Lemma well_formed_update id f db :
  (forall o, well_formed o -> well_formed (f o)) ->
  Forall well_formed (orders db) ->
  Forall well_formed (orders (update_where id f db)).
Proof.
  intros Hf H. unfold update_where, with_orders. cbn [orders].
  induction H as [|o os Ho Hos IH]; cbn [map]; constructor; [|exact IH].
  destruct (o_id o =? id); auto.
Qed.

Lemma well_formed_filter p db :
  Forall well_formed (orders db) ->
  Forall well_formed (filter p (orders db)).
Proof.
  intros H. apply Forall_forall. intros o Ho.
  apply filter_In in Ho as [Ho _].
  revert o Ho. now apply Forall_forall.
Qed.

(** The statement and values a handler passes on a valid request keep
    every row well formed when they are executed with the values bound. *)
Lemma well_formed_bound r req sql values ok db :
  validationResult r req = [] ->
  call_of r (sanitized r req) = Some (sql, Some values, ok) ->
  Forall well_formed (orders db) ->
  Forall well_formed (orders (snd (exec sql (Some values) db))).
Proof.
  intros Hv Hc Hdb.
  destruct r; unfold call_of in Hc; try discriminate Hc;
    rewrite ?sanitized_post, ?sanitized_put, ?sanitized_patch, ?sanitized_delete in Hc;
    cbn [body_name body_quantity params_id] in Hc;
    injection Hc as <- <- _.
  - (* INSERT *)
    destruct (post_valid req Hv) as (Hn & z & Hz & Hz1).
    rewrite exec_insert, Hz. cbn [column_text snd with_orders orders].
    apply Forall_app. split; [exact Hdb|].
    repeat constructor; assumption.
  - (* the four PATCH statements *)
    destruct (patch_valid req Hv) as [Hname Hquantity].
    unfold patch_sql, patch_updates, patch_values.
    destruct (truthy (patch_name (body_name req))) eqn:Tn;
      destruct (truthy (body_quantity req)) eqn:Tq;
      cbn [app join];
      try (destruct (Hname eq_refl) as (s & -> & Hs));
      try (destruct (Hquantity eq_refl) as (z & Hz & Hz1)).
    + change ("UPDATE orders SET " ++ "name=?" ++ ", " ++ "quantity=?" ++ " WHERE id=?")
        with "UPDATE orders SET name=?, quantity=? WHERE id=?".
      rewrite exec_replace, Hz. cbn [column_text].
      destruct (column_int (Str _)); [|exact Hdb].
      cbn [snd]. apply well_formed_update; [|exact Hdb].
      intros o _. split; assumption.
    + change ("UPDATE orders SET " ++ "name=?" ++ " WHERE id=?")
        with "UPDATE orders SET name=? WHERE id=?".
      rewrite exec_set_name. cbn [column_text].
      destruct (column_int (Str _)); [|exact Hdb].
      cbn [snd]. apply well_formed_update; [|exact Hdb].
      intros o [_ Hq]. split; assumption.
    + change ("UPDATE orders SET " ++ "quantity=?" ++ " WHERE id=?")
        with "UPDATE orders SET quantity=? WHERE id=?".
      rewrite exec_set_quantity, Hz.
      destruct (column_int (Str _)); [|exact Hdb].
      cbn [snd]. apply well_formed_update; [|exact Hdb].
      intros o [Hn _]. split; assumption.
    + change ("UPDATE orders SET " ++ EmptyString ++ " WHERE id=?")
        with "UPDATE orders SET  WHERE id=?".
      rewrite exec_empty_set. exact Hdb.
  - (* PUT *)
    destruct (put_valid req Hv) as (Hn & z & Hz & Hz1).
    rewrite exec_replace, Hz. cbn [column_text].
    destruct (column_int (Str _)); [|exact Hdb].
    cbn [snd]. apply well_formed_update; [|exact Hdb].
    intros o _. split; assumption.
  - (* DELETE *)
    rewrite exec_delete.
    destruct (column_int (Str _)); [|exact Hdb].
    cbn [snd with_orders orders]. now apply well_formed_filter.
Qed.

(** Every statement of a route that carries a [?] marker fails on the
    reference server, whatever the request: the values never arrive. *)
Lemma write_statement_fails r req sql values ok st :
  r = POST_orders \/ r = PATCH_orders_id \/ r = PUT_orders_id \/ r = DELETE_orders_id ->
  call_of r req = Some (sql, values, ok) ->
  reachable (world st) = true ->
  calling mariadb sql values ok st =
    (Returned (mkResponse 500 (JsonError ER_PARSE_ERROR)),
     mkState (world st)
       (trace st ++ [Acquire 0%nat; Query 0%nat sql None; Release 0%nat])).
Proof.
  intros Hr Hc Hup.
  rewrite calling_unfold, queryDB_unfold.
  cbn [mariadb pool_getConnection conn_query conn_release]. rewrite Hup.
  assert (E : exec sql None (world st) = (Thrown ER_PARSE_ERROR, world st)).
  { destruct Hr as [->|[->|[->| ->]]]; unfold call_of in Hc;
      injection Hc as <- _ _; try reflexivity.
    unfold patch_sql, patch_updates.
    destruct (truthy (body_name req)), (truthy (body_quantity req)); reflexivity. }
  rewrite E. reflexivity.
Qed.

Lemma write_route_fails r req st :
  r = POST_orders \/ r = PATCH_orders_id \/ r = PUT_orders_id \/ r = DELETE_orders_id ->
  validationResult r req = [] ->
  reachable (world st) = true ->
  exists sql,
    handle mariadb r req st =
      (Returned (mkResponse 500 (JsonError ER_PARSE_ERROR)),
       mkState (world st)
         (trace st ++ [Acquire 0%nat; Query 0%nat sql None; Release 0%nat])).
Proof.
  intros Hr Hv Hup. rewrite handle_call, Hv. cbn [isEmpty].
  destruct (call_of r (sanitized r req)) as [[[sql values] ok]|] eqn:Hc.
  - exists sql. now apply (write_statement_fails r (sanitized r req)).
  - destruct Hr as [->|[->|[->| ->]]]; discriminate Hc.
Qed.

(** * The claims *)

(** C1.  The claim asks that the values a handler supplies be bound into
    the statement that is executed.  On POST /orders with body
    [{ name: "Widget", quantity: 5 }] the handler does pass the statement
    together with [["Widget", 5]] to [queryDB], but the one call that
    reaches the connection is [conn.query(sql)] with no values at all, and
    the server answers the unbound statement with a syntax error. *)
Theorem post_values_not_bound :
  option_map fst (call_of POST_orders (sanitized POST_orders widget))
    = Some ("INSERT INTO orders(name, quantity) VALUES (?, ?)",
            Some [Str "Widget"; Num 5])
  /\ handle mariadb POST_orders widget (start []) =
       (Returned (mkResponse 500 (JsonError ER_PARSE_ERROR)),
        mkState (fresh [])
          [Acquire 0%nat;
           Query 0%nat "INSERT INTO orders(name, quantity) VALUES (?, ?)" None;
           Release 0%nat]).
Proof. split; reflexivity. Qed.

(** C2, as stated, fails.  PATCH /orders/1 with body [{ name: "   " }]
    supplies a name whose trimmed length is 0, yet validation reports no
    error and the answer is not 400. *)
Lemma patch_blank_name_accepted :
  body_name blank_name <> Undefined
  /\ String.length (trim (toString (body_name blank_name))) = 0%nat
  /\ validationResult PATCH_orders_id blank_name = []
  /\ fst (handle mariadb PATCH_orders_id blank_name (start one_row))
       = Returned (mkResponse 500 (JsonError ER_PARSE_ERROR)).
Proof. repeat split. discriminate. Qed.

(** C2, amended.  For every PATCH /orders/{id} request whose body
    supplies a name, the name the handler reads is the supplied one
    trimmed and then HTML-escaped; no length is required of it: the name
    never contributes a validation error, so with an integer id and a
    valid or absent quantity the request passes validation whatever the
    name trims to. *)
Theorem patch_name_sanitized req :
  body_name req <> Undefined ->
  body_name (sanitized PATCH_orders_id req)
    = Str (escape (trim (toString (body_name req))))
  /\ Forall (fun e => e_field e <> BodyName) (validationResult PATCH_orders_id req)
  /\ (isInt None (params_id req) = true ->
      body_quantity req = Undefined
      \/ isInt (Some 1) (toString (body_quantity req)) = true ->
      validationResult PATCH_orders_id req = []).
Proof.
  intros Hn. rewrite sanitized_patch. cbn [body_name].
  split; [now apply patch_name_supplied|].
  split; [apply patch_errors_not_name|apply patch_passes].
Qed.

Lemma patch_name_sanitized_witness :
  body_name bold_7 <> Undefined
  /\ body_name (sanitized PATCH_orders_id bold_7) = Str "&lt;b&gt;"
  /\ validationResult PATCH_orders_id bold_7 = [].
Proof.
  assert (Hn : body_name bold_7 <> Undefined) by discriminate.
  destruct (patch_name_sanitized bold_7 Hn) as (Hs & _ & Hv).
  split; [exact Hn|]. split; [exact Hs|].
  apply Hv; [reflexivity|right; reflexivity].
Defined.

(** C3.  Every order row in the table has a non-empty name and a quantity
    of at least 1, and validation alone keeps it so: starting from such a
    table, no sequence of requests served leaves another kind of row in
    it, and the statement and values any handler passes on a request that
    passed validation keep the table well formed when executed with the
    values bound.  Nothing is assumed of the table beyond its starting
    rows. *)
Theorem rows_written_well_formed reqs st r req sql values ok :
  Forall well_formed (orders (world st)) ->
  Forall well_formed (orders (world (snd (serve mariadb reqs st))))
  /\ (validationResult r req = [] ->
      call_of r (sanitized r req) = Some (sql, Some values, ok) ->
      Forall well_formed (orders (snd (exec sql (Some values) (world st))))).
Proof.
  intros Hst. split.
  - now rewrite serve_mariadb_world.
  - intros Hv Hc. now apply (well_formed_bound r req sql values ok).
Qed.

Lemma rows_written_well_formed_witness :
  Forall well_formed (orders (world (start one_row)))
  /\ Forall well_formed
       (orders (world (snd (serve mariadb
          [(POST_orders, widget); (PUT_orders_id, put_1)] (start one_row)))))
  /\ Forall well_formed
       (orders (snd (exec "INSERT INTO orders(name, quantity) VALUES (?, ?)"
                       (Some [Str "Widget"; Num 5]) (world (start one_row))))).
Proof.
  assert (H : Forall well_formed (orders (world (start one_row)))).
  { repeat constructor; [discriminate|simpl; lia]. }
  destruct (rows_written_well_formed
              [(POST_orders, widget); (PUT_orders_id, put_1)] (start one_row)
              POST_orders widget
              "INSERT INTO orders(name, quantity) VALUES (?, ?)"
              [Str "Widget"; Num 5] (created (Str "Widget") (Num 5)) H)
    as [Hserve Hbound].
  split; [exact H|]. split; [exact Hserve|].
  apply Hbound; reflexivity.
Defined.

(** C4.  Whenever the pool hands out a connection, [queryDB] passes on
    what the query returned or threw, and the calls it made are the
    acquisition, the one query and then the release: the connection is
    released exactly once, after the query and before [queryDB] returns
    or rethrows, and the world it leaves is the one the query left with
    that release applied to it, on either exit. *)
Theorem queryDB_releases_once {W : Type} (d : driver W) sql values st c w :
  pool_getConnection d (world st) = (Returned c, w) ->
  exists evs,
    fst (queryDB d sql values st) = fst (conn_query d c sql None w)
    /\ trace (snd (queryDB d sql values st)) = (trace st ++ evs)%list
    /\ evs = [Acquire c; Query c sql None; Release c]
    /\ releases c evs = 1%nat
    /\ world (snd (queryDB d sql values st))
         = conn_release d c (snd (conn_query d c sql None w)).
Proof.
  intros H. rewrite queryDB_unfold, H. cbn [fst snd trace world].
  eexists. repeat split. apply releases_acquired.
Qed.

Lemma queryDB_releases_once_witness :
  pool_getConnection mariadb (world (start one_row)) = (Returned 0%nat, fresh one_row)
  /\ exists evs,
       fst (queryDB mariadb "DELETE FROM orders WHERE id=?" (Some [Str "1"])
              (start one_row))
         = fst (conn_query mariadb 0%nat "DELETE FROM orders WHERE id=?" None
                  (fresh one_row))
       /\ trace (snd (queryDB mariadb "DELETE FROM orders WHERE id=?"
                        (Some [Str "1"]) (start one_row)))
            = (trace (start one_row) ++ evs)%list
       /\ evs = [Acquire 0%nat;
                 Query 0%nat "DELETE FROM orders WHERE id=?" None;
                 Release 0%nat]
       /\ releases 0%nat evs = 1%nat
       /\ world (snd (queryDB mariadb "DELETE FROM orders WHERE id=?"
                        (Some [Str "1"]) (start one_row)))
            = conn_release mariadb 0%nat
                (snd (conn_query mariadb 0%nat "DELETE FROM orders WHERE id=?"
                        None (fresh one_row))).
Proof.
  split; [reflexivity|].
  apply (queryDB_releases_once mariadb
           "DELETE FROM orders WHERE id=?" (Some [Str "1"]) (start one_row)
           0%nat (fresh one_row)).
  reflexivity.
Defined.

(** C5.  On every route, a request whose validation result is not empty
    -- in particular any PATCH, PUT or DELETE whose path id is not an
    integer -- is answered 400 with the validator's error list as the
    body, and the state is left as it was: no connection is acquired and
    no statement is executed. *)
Theorem invalid_request_400 {W : Type} (d : driver W) r req st :
  validationResult r req <> []
  \/ ((r = PATCH_orders_id \/ r = PUT_orders_id \/ r = DELETE_orders_id)
      /\ isInt None (params_id req) = false) ->
  validationResult r req <> []
  /\ handle d r req st =
       (Returned (mkResponse 400 (JsonErrors (validationResult r req))), st).
Proof.
  intros H.
  assert (Hne : validationResult r req <> []).
  { destruct H as [H|[Hr Hid]]; [exact H|now apply bad_id_invalid]. }
  split; [exact Hne|].
  rewrite handle_call.
  destruct (validationResult r req); [congruence|reflexivity].
Qed.

Lemma invalid_request_400_witness :
  isInt None (params_id blank_name_bad_id) = false
  /\ validationResult PATCH_orders_id blank_name_bad_id <> []
  /\ handle mariadb PATCH_orders_id blank_name_bad_id (start one_row) =
       (Returned (mkResponse 400
          (JsonErrors (validationResult PATCH_orders_id blank_name_bad_id))),
        start one_row).
Proof.
  split; [reflexivity|].
  apply (invalid_request_400 mariadb PATCH_orders_id
           blank_name_bad_id (start one_row)).
  right. split; [left; reflexivity|reflexivity].
Defined.

(** C6.  For every PATCH /orders/{id} request that passes validation, the
    statement the handler builds has in its SET clause exactly the fields
    that are truthy in the body the handler reads (the name as the
    sanitizers left it), name before quantity, and the value array it
    passes with the statement holds their values in the same order with
    the id last; with neither field truthy the SET clause is empty and the
    array holds the id alone.  The statement and the array are pinned by
    what the handler body passes to whatever executor it is given. *)
Theorem patch_set_clause {W : Type} (d : driver W) req st :
  validationResult PATCH_orders_id req = [] ->
  let name := body_name (sanitized PATCH_orders_id req) in
  let quantity := body_quantity (sanitized PATCH_orders_id req) in
  let id := Str (params_id req) in
  name = patch_name (body_name req)
  /\ quantity = body_quantity req
  /\ patch_orders d req st =
       match truthy name, truthy quantity with
       | true, true =>
           calling d "UPDATE orders SET name=?, quantity=? WHERE id=?"
             (Some [name; quantity; id]) updated st
       | true, false =>
           calling d "UPDATE orders SET name=? WHERE id=?"
             (Some [name; id]) updated st
       | false, true =>
           calling d "UPDATE orders SET quantity=? WHERE id=?"
             (Some [quantity; id]) updated st
       | false, false =>
           calling d "UPDATE orders SET  WHERE id=?" (Some [id]) updated st
       end
  /\ (forall (execute : string -> option (list value) -> M W query_result) st0,
        patch_handler execute req st0 =
          match truthy name, truthy quantity with
          | true, true =>
              answering execute "UPDATE orders SET name=?, quantity=? WHERE id=?"
                (Some [name; quantity; id]) updated st0
          | true, false =>
              answering execute "UPDATE orders SET name=? WHERE id=?"
                (Some [name; id]) updated st0
          | false, true =>
              answering execute "UPDATE orders SET quantity=? WHERE id=?"
                (Some [quantity; id]) updated st0
          | false, false =>
              answering execute "UPDATE orders SET  WHERE id=?" (Some [id])
                updated st0
          end).
Proof.
  intros Hv. rewrite sanitized_patch. cbn [body_name body_quantity].
  split; [reflexivity|]. split; [reflexivity|]. split.
  - now apply patch_orders_calling.
  - intros execute st0. now apply patch_handler_answering.
Qed.

Lemma patch_set_clause_witness :
  validationResult PATCH_orders_id bold_7 = []
  /\ patch_orders mariadb bold_7 (start one_row) =
       calling mariadb "UPDATE orders SET name=?, quantity=? WHERE id=?"
         (Some [Str "&lt;b&gt;"; Str "7"; Str "1"]) updated (start one_row)
  /\ patch_handler Shape.show_call bold_7 (start one_row) =
       (Returned (mkResponse 500 (JsonError
          "UPDATE orders SET name=?, quantity=? WHERE id=? [&lt;b&gt;, 7, 1]")),
        start one_row).
Proof.
  assert (Hv : validationResult PATCH_orders_id bold_7 = []) by reflexivity.
  destruct (patch_set_clause mariadb bold_7 (start one_row) Hv)
    as (_ & _ & Hcall & Hany).
  split; [exact Hv|]. split; [exact Hcall|].
  exact (Hany Shape.show_call (start one_row)).
Defined.

(** C7.  The claim asks that a valid POST be answered 201 with the new
    row's id and that the row then be retrievable.  POST /orders with body
    [{ name: "Widget", quantity: 5 }] passes validation, but the INSERT
    reaches the server without its values: the answer is 500 with the
    server's syntax error, and the GET /orders that follows lists no row. *)
Theorem post_widget_not_created :
  validationResult POST_orders widget = []
  /\ serve mariadb [(POST_orders, widget); (GET_orders, widget)] (start []) =
       ([Returned (mkResponse 500 (JsonError ER_PARSE_ERROR));
         Returned (mkResponse 200 (JsonResult (Rows [])))],
        mkState (fresh [])
          [Acquire 0%nat;
           Query 0%nat "INSERT INTO orders(name, quantity) VALUES (?, ?)" None;
           Release 0%nat;
           Acquire 0%nat; Query 0%nat "SELECT * FROM orders;" None;
           Release 0%nat]).
Proof. split; reflexivity. Qed.

(** C8.  The claim asks that a valid PUT be answered 200, with
    affectedRows 0 on an id that has no row and with affectedRows 1 and
    the row replaced on an id that has one.  Over the table holding row 1
    alone, PUT /orders/2 and PUT /orders/1 with body
    [{ name: "x", quantity: 3 }] both pass validation and both are answered
    500: the UPDATE reaches the server without its values, and row 1 keeps
    its name and quantity. *)
Theorem put_not_executed :
  validationResult PUT_orders_id put_2 = []
  /\ validationResult PUT_orders_id put_1 = []
  /\ fst (handle mariadb PUT_orders_id put_2 (start one_row))
       = Returned (mkResponse 500 (JsonError ER_PARSE_ERROR))
  /\ handle mariadb PUT_orders_id put_1 (start one_row) =
       (Returned (mkResponse 500 (JsonError ER_PARSE_ERROR)),
        mkState (fresh [mkOrder 1 "a" 2])
          [Acquire 0%nat;
           Query 0%nat "UPDATE orders SET name=?, quantity=? WHERE id=?" None;
           Release 0%nat]).
Proof. repeat split. Qed.



(** C10, as stated, fails.  PATCH /orders/abc with body [{ name: "   " }]
    supplies a name that trims to the empty string and no quantity, yet
    the request does not pass validation: the id chain rejects it and the
    answer is 400. *)
Lemma patch_blank_name_bad_id_rejected :
  body_name blank_name_bad_id <> Undefined
  /\ trim (toString (body_name blank_name_bad_id)) = EmptyString
  /\ body_quantity blank_name_bad_id = Undefined
  /\ handle mariadb PATCH_orders_id blank_name_bad_id (start one_row) =
       (Returned (mkResponse 400 (JsonErrors [invalid ParamId (Str "abc")])),
        start one_row).
Proof. repeat split. discriminate. Qed.

(** C10, amended.  For every PATCH /orders/{id} request with an integer
    path id whose body supplies a name that trims to the empty string,
    and a valid or absent quantity: the request passes validation, the
    name is left out of the statement and of its values, the answer is
    not 400, and with the quantity absent the statement passed on, and
    executed once a connection is acquired, is the one with the empty SET
    clause. *)
Theorem patch_blank_name_skipped {W : Type} (d : driver W) req st :
  body_name req <> Undefined ->
  trim (toString (body_name req)) = EmptyString ->
  isInt None (params_id req) = true ->
  body_quantity req = Undefined
  \/ isInt (Some 1) (toString (body_quantity req)) = true ->
  validationResult PATCH_orders_id req = []
  /\ patch_orders d req st =
       (if value_eq_dec (body_quantity req) Undefined then
          calling d "UPDATE orders SET  WHERE id=?"
            (Some [Str (params_id req)]) updated st
        else
          calling d "UPDATE orders SET quantity=? WHERE id=?"
            (Some [body_quantity req; Str (params_id req)]) updated st)
  /\ (exists resp st',
        patch_orders d req st = (Returned resp, st') /\ status resp <> 400)
  /\ (forall c w,
        pool_getConnection d (world st) = (Returned c, w) ->
        body_quantity req = Undefined ->
        trace (snd (patch_orders d req st)) =
          (trace st ++
           [Acquire c; Query c "UPDATE orders SET  WHERE id=?" None; Release c])%list).
Proof.
  intros Hn Ht Hid Hq.
  pose proof (patch_passes req Hid Hq) as Hv.
  pose proof (patch_orders_calling W d req st Hv) as Eh. cbv zeta in Eh.
  assert (Tn : truthy (patch_name (body_name req)) = false).
  { rewrite truthy_patch_name, Ht. now destruct (value_eq_dec _ _). }
  rewrite Tn in Eh.
  assert (E : patch_orders d req st =
       (if value_eq_dec (body_quantity req) Undefined then
          calling d "UPDATE orders SET  WHERE id=?"
            (Some [Str (params_id req)]) updated st
        else
          calling d "UPDATE orders SET quantity=? WHERE id=?"
            (Some [body_quantity req; Str (params_id req)]) updated st)).
  { rewrite Eh. destruct (value_eq_dec (body_quantity req) Undefined) as [->|Hne].
    - reflexivity.
    - destruct Hq as [Hq|Hq]; [congruence|].
      now rewrite (isInt_min1_truthy _ Hq). }
  split; [exact Hv|]. split; [exact E|].
  rewrite E. split.
  - destruct (value_eq_dec _ _); rewrite calling_unfold;
      match goal with |- context [queryDB d ?s ?v st] =>
        destruct (queryDB d s v st) as [[result|msg] st1] end;
      do 2 eexists; (split; [reflexivity|discriminate]).
  - intros c w Hc Habsent.
    destruct (value_eq_dec _ _) as [_|Hne]; [|congruence].
    now apply calling_trace with (w := w).
Qed.

Lemma patch_blank_name_skipped_witness :
  body_name blank_name <> Undefined
  /\ trim (toString (body_name blank_name)) = EmptyString
  /\ isInt None (params_id blank_name) = true
  /\ validationResult PATCH_orders_id blank_name = []
  /\ patch_orders mariadb blank_name (start one_row) =
       calling mariadb "UPDATE orders SET  WHERE id=?" (Some [Str "1"]) updated
         (start one_row)
  /\ trace (snd (patch_orders mariadb blank_name (start one_row))) =
       [Acquire 0%nat; Query 0%nat "UPDATE orders SET  WHERE id=?" None;
        Release 0%nat].
Proof.
  assert (Hn : body_name blank_name <> Undefined) by discriminate.
  destruct (patch_blank_name_skipped mariadb blank_name (start one_row)
              Hn eq_refl eq_refl (or_introl eq_refl)) as (Hv & Hcall & _ & Htrace).
  split; [exact Hn|]. split; [reflexivity|]. split; [reflexivity|].
  split; [exact Hv|]. split; [exact Hcall|].
  exact (Htrace 0%nat (fresh one_row) eq_refl eq_refl).
Defined.

(** * Further properties of the routes *)

Import Shape.

Ltac each_char c := destruct c as [[] [] [] [] [] [] [] []].

(** ** Traces and sessions *)

Lemma quiet_handle {W : Type} (d : driver W) r req st :
  quiet r req = true -> snd (handle d r req st) = st.
Proof.
  intros Hq. rewrite handle_call. unfold quiet in Hq.
  destruct r; try (destruct (isEmpty _); [discriminate Hq|reflexivity]).
  reflexivity.
Qed.

(** X1.  On every database route, a request that passed validation and
    was handed a connection makes three driver calls of its own, in this
    order: the acquisition, one query carrying the route's statement and
    no values on the connection acquired, and the release of that
    connection, applied to the world the query left.  Its answer is the
    route's success answer built from the result, or 500 with the message
    the query threw. *)
Theorem handler_outcome {W : Type} (d : driver W) r req st sql values ok c w :
  validationResult r req = [] ->
  call_of r (sanitized r req) = Some (sql, values, ok) ->
  pool_getConnection d (world st) = (Returned c, w) ->
  handle d r req st =
    (match fst (conn_query d c sql None w) with
     | Returned result => Returned (ok result)
     | Thrown message => Returned (mkResponse 500 (JsonError message))
     end,
     mkState (conn_release d c (snd (conn_query d c sql None w)))
       (trace st ++ [Acquire c; Query c sql None; Release c])).
Proof.
  intros Hv Hcall Hc.
  rewrite handle_call, Hv, Hcall. cbn [isEmpty].
  rewrite calling_unfold, queryDB_unfold, Hc.
  destruct (conn_query d c sql None w) as [[result|e] w']; reflexivity.
Qed.

Lemma handler_outcome_witness :
  handle mariadb GET_orders widget (start one_row) =
    (Returned (mkResponse 200
       (JsonResult (Rows [[("id", Num 1); ("name", Str "a"); ("quantity", Num 2)]]))),
     mkState (fresh one_row)
       [Acquire 0%nat; Query 0%nat "SELECT * FROM orders;" None; Release 0%nat])
  /\ handle mariadb PUT_orders_id put_1 (start one_row) =
    (Returned (mkResponse 500 (JsonError ER_PARSE_ERROR)),
     mkState (fresh one_row)
       [Acquire 0%nat;
        Query 0%nat "UPDATE orders SET name=?, quantity=? WHERE id=?" None;
        Release 0%nat]).
Proof.
  split.
  - apply (handler_outcome mariadb GET_orders widget (start one_row)
             "SELECT * FROM orders;" None listed 0%nat (fresh one_row));
      reflexivity.
  - apply (handler_outcome mariadb PUT_orders_id put_1 (start one_row)
             "UPDATE orders SET name=?, quantity=? WHERE id=?"
             (Some [Str "x"; Num 3; Str "1"]) replaced 0%nat (fresh one_row));
      reflexivity.
Defined.

(** X2.  Requests to the root route and requests that fail validation
    leave no mark: the world and the trace at the end of a session are
    those of the session without them. *)
Theorem quiet_requests_leave_no_mark {W : Type} (d : driver W) reqs st :
  snd (serve d reqs st) = snd (serve d (filter loud reqs) st).
Proof.
  revert st. induction reqs as [|[r req] rest IH]; intro st; [reflexivity|].
  cbn [serve filter]. unfold loud at 1. cbn [fst snd].
  destruct (quiet r req) eqn:Hq; cbn [negb].
  - pose proof (quiet_handle d r req st Hq) as Hst.
    destruct (handle d r req st) as [o st1]. cbn [snd] in Hst. subst st1.
    specialize (IH st).
    destruct (serve d rest st) as [os st2]. exact IH.
  - cbn [serve].
    destruct (handle d r req st) as [o st1].
    specialize (IH st1).
    destruct (serve d rest st1) as [os st2].
    destruct (serve d (filter loud rest) st1) as [os' st2']. exact IH.
Qed.

(** ** The routes one by one *)

(** X3.  Whatever the driver, an answer a handler sends has status 200,
    201, 400 or 500; it is 400 exactly when the validation result is not
    empty, and 201 only on POST /orders.  (The requests are those whose
    body the parser delivered as an object.) *)
Theorem response_status {W : Type} (d : driver W) r req st resp st' :
  handle d r req st = (Returned resp, st') ->
  In (status resp) [200; 201; 400; 500]
  /\ (status resp = 400 <-> validationResult r req <> [])
  /\ (status resp = 201 -> r = POST_orders).
Proof.
  rewrite handle_call.
  destruct (validationResult r req) as [|e es] eqn:Hv; cbn [isEmpty].
  2:{ intros H. injection H as <- _. cbn [status].
      repeat split; try (intro; discriminate); cbn; auto. }
  destruct (call_of r (sanitized r req)) as [[[sql values] ok]|] eqn:Hc.
  2:{ intros H. injection H as <- _. cbn [status].
      repeat split; try (intro; discriminate); try congruence; cbn; auto. }
  rewrite calling_unfold.
  destruct (queryDB d sql values st) as [[result|msg] st1];
    intros H; injection H as <- _.
  - destruct r; unfold call_of in Hc; try discriminate Hc;
      injection Hc as _ _ <-;
      cbn [status listed created updated replaced deleted];
      repeat split; try (intro; discriminate); try congruence; cbn; auto.
  - cbn [status].
    repeat split; try (intro; discriminate); try congruence; cbn; auto.
Qed.

Lemma response_status_witness :
  In (status (mkResponse 400 (JsonErrors [invalid BodyQuantity Null])))
     [200; 201; 400; 500]
  /\ (400 = 400 <-> validationResult PATCH_orders_id null_quantity <> [])
  /\ (400 = 201 -> PATCH_orders_id = POST_orders).
Proof.
  apply (response_status mariadb PATCH_orders_id null_quantity (start one_row)
           (mkResponse 400 (JsonErrors [invalid BodyQuantity Null]))
           (start one_row)).
  reflexivity.
Defined.

(** X4.  When the pool cannot hand out a connection, every database
    route that got past validation answers 500 with the pool's own
    message; no statement is sent and nothing is released. *)
Theorem pool_failure_500 {W : Type} (d : driver W) r req st message w :
  r <> GET_root ->
  validationResult r req = [] ->
  pool_getConnection d (world st) = (Thrown message, w) ->
  handle d r req st =
    (Returned (mkResponse 500 (JsonError message)), mkState w (trace st)).
Proof.
  intros Hr Hv Hp. rewrite handle_call, Hv. cbn [isEmpty].
  destruct (call_of r (sanitized r req)) as [[[sql values] ok]|] eqn:Hc.
  - now rewrite calling_unfold, queryDB_unfold, Hp.
  - destruct r; try discriminate Hc. congruence.
Qed.

Lemma pool_failure_500_witness :
  handle mariadb DELETE_orders_id put_1 offline =
    (Returned (mkResponse 500 (JsonError ER_CONNECTION)), offline).
Proof.
  apply (pool_failure_500 mariadb DELETE_orders_id put_1 offline
           ER_CONNECTION (world offline));
    [discriminate|reflexivity|reflexivity].
Defined.

(** X5.  The listing routes GET /orders, GET /student and GET /foods do
    not read the request: once a connection is acquired they send their
    one SELECT, release the connection, and answer 200 with whatever the
    query returned, unchanged, or 500 with the message it threw. *)
Theorem listing_forwards_rows {W : Type} (d : driver W) r sql req st c w :
  In (r, sql) listings ->
  pool_getConnection d (world st) = (Returned c, w) ->
  handle d r req st =
    (match fst (conn_query d c sql None w) with
     | Returned rows => Returned (mkResponse 200 (JsonResult rows))
     | Thrown message => Returned (mkResponse 500 (JsonError message))
     end,
     mkState (conn_release d c (snd (conn_query d c sql None w)))
       (trace st ++ [Acquire c; Query c sql None; Release c])).
Proof.
  intros Hin Hc.
  assert (Hcall : call_of r (sanitized r req) = Some (sql, None, listed)
                  /\ validationResult r req = []).
  { destruct Hin as [E|[E|[E|[]]]]; injection E as <- <-; split; reflexivity. }
  destruct Hcall as [Hcall Hv].
  rewrite handle_call, Hv, Hcall. cbn [isEmpty].
  rewrite calling_unfold, queryDB_unfold, Hc.
  destruct (conn_query d c sql None w) as [[result|e] w']; reflexivity.
Qed.

Lemma listing_forwards_rows_witness :
  handle mariadb GET_student bold_7 campus =
    (Returned (mkResponse 200
       (JsonResult (Rows [[("id", Num 1); ("name", Str "Ada")]]))),
     mkState (world campus)
       [Acquire 0%nat; Query 0%nat "SELECT * FROM student;" None; Release 0%nat]).
Proof.
  apply (listing_forwards_rows mariadb GET_student "SELECT * FROM student;"
           bold_7 campus 0%nat (world campus));
    [right; left; reflexivity|reflexivity].
Defined.

(** X6.  DELETE /orders/{id} never reads the body: two requests with the
    same path id get the same answer and leave the same state, whatever
    their bodies. *)
Theorem delete_ignores_body {W : Type} (d : driver W) req1 req2 st :
  params_id req1 = params_id req2 ->
  handle d DELETE_orders_id req1 st = handle d DELETE_orders_id req2 st.
Proof.
  intros Hid. rewrite !handle_call.
  unfold validationResult, chains_of.
  rewrite !sanitized_delete, !delete_validation. cbn [snd call_of].
  now rewrite Hid.
Qed.

Lemma delete_ignores_body_witness :
  handle mariadb DELETE_orders_id put_1 (start one_row)
    = handle mariadb DELETE_orders_id blank_name (start one_row).
Proof.
  apply (delete_ignores_body mariadb put_1 blank_name (start one_row)).
  reflexivity.
Defined.

(** X7.  DELETE /orders/{id} with an integer id, once a connection is
    acquired: the one call sent is the DELETE statement without values,
    the connection is released, and the answer is 200 with
    [{ msg: "Order deleted", affectedRows }] read from the result when the
    query returns, 500 with its message when it throws. *)
Theorem delete_outcome {W : Type} (d : driver W) req st c w :
  isInt None (params_id req) = true ->
  pool_getConnection d (world st) = (Returned c, w) ->
  handle d DELETE_orders_id req st =
    (match fst (conn_query d c "DELETE FROM orders WHERE id=?" None w) with
     | Returned result =>
         Returned (mkResponse 200 (JsonMsg "Order deleted" (affectedRows result)))
     | Thrown message => Returned (mkResponse 500 (JsonError message))
     end,
     mkState
       (conn_release d c (snd (conn_query d c "DELETE FROM orders WHERE id=?" None w)))
       (trace st ++
        [Acquire c; Query c "DELETE FROM orders WHERE id=?" None; Release c])).
Proof.
  intros Hid Hc. rewrite handle_call.
  unfold validationResult, chains_of. rewrite delete_validation.
  cbn [snd]. unfold check. rewrite Hid. cbn [isEmpty call_of].
  rewrite calling_unfold, queryDB_unfold, Hc.
  destruct (conn_query d c _ None w) as [[result|e] w']; reflexivity.
Qed.

Lemma delete_outcome_witness :
  handle mariadb DELETE_orders_id put_1 (start one_row) =
    (Returned (mkResponse 500 (JsonError ER_PARSE_ERROR)),
     mkState (fresh one_row)
       [Acquire 0%nat; Query 0%nat "DELETE FROM orders WHERE id=?" None;
        Release 0%nat]).
Proof.
  apply (delete_outcome mariadb put_1 (start one_row) 0%nat (fresh one_row));
    reflexivity.
Defined.

(** ** What validation accepts, rejects and rewrites *)

Lemma isLength_1_false s : isLength 1 s = false -> s = EmptyString.
Proof. destruct s; [reflexivity|discriminate]. Qed.

(** X8.  POST /orders and PUT /orders/{id} answer 400, without touching
    the database, whenever the name is absent, null or blank, or the
    quantity is absent, null, a boolean or a number below 1. *)
Theorem incomplete_order_400 {W : Type} (d : driver W) r req st :
  r = POST_orders \/ r = PUT_orders_id ->
  body_name req = Undefined \/ body_name req = Null
  \/ (exists s, body_name req = Str s /\ trim s = EmptyString)
  \/ body_quantity req = Undefined \/ body_quantity req = Null
  \/ (exists b, body_quantity req = Bool b)
  \/ (exists z, body_quantity req = Num z /\ z <= 0) ->
  validationResult r req <> []
  /\ handle d r req st =
       (Returned (mkResponse 400 (JsonErrors (validationResult r req))), st).
Proof.
  intros Hr Hbad.
  assert (Hne : validationResult r req <> []).
  { assert (Hcase : isLength 1 (trim (toString (body_name req))) = false
                    \/ isInt (Some 1) (toString (body_quantity req)) = false).
    { destruct Hbad as [->|[->|[(s & -> & Hs)|[->|[->|[(b & ->)|(z & -> & Hz)]]]]]];
        try (left; reflexivity); try (right; reflexivity).
      - left. cbn [toString]. now rewrite Hs.
      - right. now destruct b.
      - right. rewrite isInt_number. apply Z.leb_gt. lia. }
    unfold validationResult, chains_of.
    destruct Hr as [-> | ->]; rewrite ?post_validation, ?put_validation;
      cbv zeta; cbn [snd]; unfold check;
      destruct Hcase as [H|H]; rewrite H;
      repeat match goal with |- context [if ?b then _ else _] => destruct b end;
      discriminate. }
  split; [exact Hne|].
  rewrite handle_call.
  destruct (validationResult r req); [congruence|reflexivity].
Qed.

Lemma incomplete_order_400_witness :
  validationResult POST_orders no_name = [invalid BodyName (Str EmptyString)]
  /\ handle mariadb POST_orders no_name (start one_row) =
       (Returned (mkResponse 400 (JsonErrors (validationResult POST_orders no_name))),
        start one_row).
Proof.
  split; [reflexivity|].
  apply (incomplete_order_400 mariadb POST_orders no_name (start one_row)).
  - left. reflexivity.
  - left. reflexivity.
Defined.

(** X9.  POST /orders with the quantity given as a number that a JSON
    body holds exactly (of magnitude at most 2^53, which JavaScript prints
    digit for digit) passes validation exactly when the name is not blank
    and the number is at least 1. *)
Theorem post_number_quantity id name z :
  - 2 ^ 53 <= z <= 2 ^ 53 ->
  (validationResult POST_orders (mkRequest id name (Num z)) = [] <->
   trim (toString name) <> EmptyString /\ 1 <= z).
Proof.
  intros _.
  rewrite post_passes_iff. cbn [body_name body_quantity].
  rewrite isInt_number, Z.leb_le. reflexivity.
Qed.

Lemma post_number_quantity_witness :
  validationResult POST_orders widget = []
  /\ validationResult POST_orders (mkRequest EmptyString (Str "Widget") (Num 0))
       <> [].
Proof.
  split.
  - apply (proj2 (post_number_quantity EmptyString (Str "Widget") 5
                    ltac:(split; lia))).
    split; [discriminate|lia].
  - intros H.
    apply (proj1 (post_number_quantity EmptyString (Str "Widget") 0
                    ltac:(split; lia))) in H.
    destruct H as [_ H]. lia.
Defined.

(** X10.  On PATCH /orders/{id} only an absent quantity is optional: a
    quantity that is null, a boolean or a number below 1 is answered 400
    and nothing is sent to the database. *)
Theorem patch_bad_quantity_400 {W : Type} (d : driver W) req st :
  body_quantity req = Null
  \/ (exists b, body_quantity req = Bool b)
  \/ (exists z, body_quantity req = Num z /\ z <= 0) ->
  In (invalid BodyQuantity (body_quantity req))
     (validationResult PATCH_orders_id req)
  /\ handle d PATCH_orders_id req st =
       (Returned (mkResponse 400
          (JsonErrors (validationResult PATCH_orders_id req))), st).
Proof.
  intros Hbad.
  assert (Hin : In (invalid BodyQuantity (body_quantity req))
                   (validationResult PATCH_orders_id req)).
  { unfold validationResult, chains_of. rewrite patch_validation. cbn [snd].
    apply in_or_app. right.
    destruct Hbad as [->|[(b & ->)|(z & -> & Hz)]];
      unfold patch_quantity_errors, check.
    - left. reflexivity.
    - destruct b; left; reflexivity.
    - rewrite isInt_number.
      replace (1 <=? z) with false by (symmetry; apply Z.leb_gt; lia).
      left. reflexivity. }
  split; [exact Hin|].
  rewrite handle_call.
  destruct (validationResult PATCH_orders_id req); [destruct Hin|reflexivity].
Qed.

Lemma patch_bad_quantity_400_witness :
  handle mariadb PATCH_orders_id null_quantity (start one_row) =
    (Returned (mkResponse 400 (JsonErrors [invalid BodyQuantity Null])),
     start one_row).
Proof.
  apply (patch_bad_quantity_400 mariadb null_quantity (start one_row)).
  left. reflexivity.
Defined.

(** X11.  Validation never rewrites the path id or the quantity, on any
    route: the handler reads them exactly as they were sent (a quantity
    sent as a string stays that string). *)
Theorem validation_keeps_id_and_quantity r req :
  params_id (sanitized r req) = params_id req
  /\ body_quantity (sanitized r req) = body_quantity req.
Proof.
  destruct r;
    rewrite ?sanitized_post, ?sanitized_put, ?sanitized_patch, ?sanitized_delete;
    split; reflexivity.
Qed.

(** X12.  For a request whose name and quantity are scalars or absent
    (an array field, which the library checks element by element, is not
    among the requests here), the validation result of every route holds
    at most one error per field, in the order id, name, quantity; a name
    error always carries the empty string, and a quantity error the
    quantity as it was sent. *)
Theorem validation_errors_shape r req :
  exists bad_id bad_name bad_quantity : bool,
    validationResult r req =
      ((if bad_id then [invalid ParamId (Str (params_id req))] else []) ++
       (if bad_name then [invalid BodyName (Str EmptyString)] else []) ++
       (if bad_quantity then [invalid BodyQuantity (body_quantity req)] else []))%list.
Proof.
  unfold validationResult, chains_of.
  destruct r;
    rewrite ?post_validation, ?put_validation, ?patch_validation, ?delete_validation;
    cbv zeta; cbn [snd run_chains fold_left];
    try (exists false, false, false; reflexivity).
  - (* POST *)
    destruct (isLength 1 (trim (toString (body_name req)))) eqn:Hn.
    + exists false, false, (negb (isInt (Some 1) (toString (body_quantity req)))).
      unfold check. now destruct (isInt _ _).
    + apply isLength_1_false in Hn as Hs. rewrite Hs.
      exists false, true, (negb (isInt (Some 1) (toString (body_quantity req)))).
      unfold check. cbn [isLength String.length Nat.leb]. now destruct (isInt _ _).
  - (* PATCH *)
    exists (negb (isInt None (params_id req))), false,
      (match patch_quantity_errors (body_quantity req) with [] => false | _ => true end).
    unfold check, patch_quantity_errors.
    destruct (isInt None _); destruct (body_quantity req); cbn [negb app];
      try reflexivity; unfold check; now destruct (isInt _ _).
  - (* PUT *)
    destruct (isLength 1 (trim (toString (body_name req)))) eqn:Hn.
    + exists (negb (isInt None (params_id req))), false,
        (negb (isInt (Some 1) (toString (body_quantity req)))).
      unfold check. now destruct (isInt None _), (isInt (Some 1) _).
    + apply isLength_1_false in Hn as Hs. rewrite Hs.
      exists (negb (isInt None (params_id req))), true,
        (negb (isInt (Some 1) (toString (body_quantity req)))).
      unfold check. cbn [isLength String.length Nat.leb].
      now destruct (isInt None _), (isInt (Some 1) _).
  - (* DELETE *)
    exists (negb (isInt None (params_id req))), false, false.
    unfold check. now destruct (isInt None _).
Qed.

(** X13.  Every integer written in decimal is accepted as a path id by
    DELETE /orders/{id}, zero and the negative ones included, whatever
    the body. *)
Theorem integer_id_accepted z name quantity :
  validationResult DELETE_orders_id (mkRequest (string_of_Z z) name quantity) = [].
Proof.
  unfold validationResult, chains_of. rewrite delete_validation.
  cbn [snd params_id]. unfold check.
  change (string_of_Z z) with (toString (Num z)). now rewrite isInt_number.
Qed.

(** ** The name the handlers read *)

Lemma free_of_app p a b :
  free_of p (a ++ b) = (free_of p a && free_of p b)%bool.
Proof.
  induction a as [|c a IH]; [reflexivity|].
  cbn [append free_of]. now rewrite IH, andb_assoc.
Qed.

Lemma length_app_string a b :
  String.length (a ++ b) = (String.length a + String.length b)%nat.
Proof. induction a as [|c a IH]; cbn; [reflexivity|now rewrite IH]. Qed.

Lemma append_empty a : (a ++ EmptyString)%string = a.
Proof. induction a as [|c a IH]; cbn; [reflexivity|now rewrite IH]. Qed.

Lemma escape_char_markup c : free_of markup (escape_char c) = true.
Proof. each_char c; reflexivity. Qed.

Lemma escape_markup s : free_of markup (escape s) = true.
Proof.
  induction s as [|c r IH]; [reflexivity|].
  cbn [escape]. now rewrite free_of_app, escape_char_markup, IH.
Qed.

Lemma head_ok_ltrim s : head_ok (ltrim s) = true.
Proof.
  induction s as [|c r IH]; [reflexivity|].
  cbn [ltrim]. destruct (is_space c) eqn:E; [exact IH|].
  cbn [head_ok]. now rewrite E.
Qed.

Lemma ltrim_head_ok s : head_ok s = true -> ltrim s = s.
Proof.
  destruct s as [|c r]; [reflexivity|]. cbn [head_ok ltrim].
  now destruct (is_space c).
Qed.

Lemma head_ok_rtrim s : head_ok s = true -> head_ok (rtrim s) = true.
Proof.
  destruct s as [|c r]; [reflexivity|]. cbn [head_ok rtrim]. intros H.
  destruct (rtrim r); [|exact H].
  destruct (is_space c) eqn:E; [discriminate H|].
  cbn [head_ok]. now rewrite E.
Qed.

Lemma rtrim_idempotent s : rtrim (rtrim s) = rtrim s.
Proof.
  induction s as [|c r IH]; [reflexivity|].
  cbn [rtrim]. destruct (rtrim r) as [|c' r'] eqn:E.
  - destruct (is_space c) eqn:Ec; [reflexivity|].
    cbn [rtrim]. now rewrite Ec.
  - cbn [rtrim] in *. now rewrite IH.
Qed.

Lemma escape_char_head c :
  is_space c = false -> head_ok (escape_char c) = true.
Proof. each_char c; intros H; try discriminate H; reflexivity. Qed.

Lemma escape_char_tail c :
  is_space c = false -> rtrim (escape_char c) = escape_char c.
Proof. each_char c; intros H; try discriminate H; reflexivity. Qed.

Lemma head_ok_app a b : a <> EmptyString -> head_ok (a ++ b) = head_ok a.
Proof. destruct a; [congruence|reflexivity]. Qed.

Lemma head_ok_escape t : head_ok t = true -> head_ok (escape t) = true.
Proof.
  destruct t as [|c r]; [reflexivity|]. cbn [head_ok escape]. intros H.
  rewrite head_ok_app by apply escape_char_nonempty.
  apply escape_char_head. now destruct (is_space c).
Qed.

Lemma rtrim_app a b :
  rtrim b <> EmptyString -> rtrim (a ++ b) = (a ++ rtrim b)%string.
Proof.
  intros Hb. induction a as [|x a IH]; [reflexivity|].
  cbn [append rtrim]. rewrite IH.
  destruct (a ++ rtrim b)%string eqn:E; [|reflexivity].
  destruct a; cbn in E; [congruence|discriminate E].
Qed.

Lemma rtrim_fixed_tail c r :
  rtrim (String c r) = String c r ->
  (r = EmptyString /\ is_space c = false)
  \/ (r <> EmptyString /\ rtrim r = r).
Proof.
  cbn [rtrim]. destruct (rtrim r) as [|c' r'] eqn:E.
  - destruct (is_space c); [discriminate|].
    intros H. injection H as <-. now left.
  - intros H. injection H as <-. right. split; [discriminate|reflexivity].
Qed.

Lemma rtrim_escape t : rtrim t = t -> rtrim (escape t) = escape t.
Proof.
  induction t as [|c r IH]; [reflexivity|]. intros H.
  destruct (rtrim_fixed_tail c r H) as [[-> Hc]|[Hr Hfix]].
  - cbn [escape]. rewrite append_empty. now apply escape_char_tail.
  - cbn [escape]. specialize (IH Hfix).
    rewrite rtrim_app; rewrite IH; [reflexivity|now apply escape_nonempty].
Qed.

(** Escaping a trimmed string leaves it trimmed. *)
Lemma sanitized_name_neat u : trim (escape (trim u)) = escape (trim u).
Proof.
  unfold trim at 1.
  rewrite (ltrim_head_ok (escape (trim u))).
  - apply rtrim_escape. unfold trim. apply rtrim_idempotent.
  - apply head_ok_escape. unfold trim. apply head_ok_rtrim, head_ok_ltrim.
Qed.

Lemma escape_char_plain c : special c = false -> escape_char c = String c EmptyString.
Proof. each_char c; intros H; try discriminate H; reflexivity. Qed.

Lemma escape_char_special c : free_of special (escape_char c) = negb (special c).
Proof. each_char c; reflexivity. Qed.

Lemma escape_char_length c :
  (1 <= String.length (escape_char c))%nat
  /\ (special c = true -> 2 <= String.length (escape_char c))%nat.
Proof.
  each_char c; vm_compute; (split; [lia|intros H; first [discriminate H|lia]]).
Qed.

Lemma escape_special s : free_of special (escape s) = free_of special s.
Proof.
  induction s as [|c r IH]; [reflexivity|].
  cbn [escape free_of]. now rewrite free_of_app, escape_char_special, IH.
Qed.

Lemma escape_plain s : free_of special s = true -> escape s = s.
Proof.
  induction s as [|c r IH]; [reflexivity|]. cbn [free_of escape].
  intros H. apply andb_true_iff in H as [Hc Hr].
  rewrite escape_char_plain by now destruct (special c).
  cbn. now rewrite IH.
Qed.

Lemma escape_length s :
  (String.length s <= String.length (escape s))%nat
  /\ (free_of special s = false -> String.length s < String.length (escape s))%nat.
Proof.
  induction s as [|c r [IHle IHlt]]; [split; [reflexivity|discriminate]|].
  cbn [escape free_of]. rewrite length_app_string. cbn [String.length].
  destruct (escape_char_length c) as [H1 H2]. split; [lia|].
  intros H. apply andb_false_iff in H as [H|H].
  - specialize (H2 (proj1 (negb_false_iff _) H)). lia.
  - specialize (IHlt H). lia.
Qed.

(** [escape] leaves exactly the strings without special characters as
    they are. *)
Lemma escape_fixed s : escape s = s <-> free_of special s = true.
Proof.
  split; [|apply escape_plain].
  intros H. destruct (free_of special s) eqn:E; [reflexivity|].
  destruct (escape_length s) as [_ Hlt]. specialize (Hlt E).
  rewrite H in Hlt. lia.
Qed.

(** X14.  The name a handler reads after validation on POST, PATCH or
    PUT holds no angle bracket, no single or double quote, no slash, no
    backslash and no backquote: each one sent was replaced by its
    entity. *)
Theorem sanitized_name_is_markup_free r req s :
  r = POST_orders \/ r = PATCH_orders_id \/ r = PUT_orders_id ->
  body_name (sanitized r req) = Str s ->
  free_of markup s = true.
Proof.
  intros Hr Hs.
  destruct Hr as [->|[->| ->]];
    rewrite ?sanitized_post, ?sanitized_patch, ?sanitized_put in Hs;
    cbn [body_name] in Hs.
  - injection Hs as <-. apply escape_markup.
  - destruct (value_eq_dec (body_name req) Undefined) as [E|E];
      [rewrite E in Hs; discriminate Hs|].
    rewrite (patch_name_supplied _ E) in Hs. injection Hs as <-.
    apply escape_markup.
  - injection Hs as <-. apply escape_markup.
Qed.

Lemma sanitized_name_is_markup_free_witness :
  body_name (sanitized PATCH_orders_id bold_7) = Str "&lt;b&gt;"
  /\ free_of markup "&lt;b&gt;" = true.
Proof.
  split; [reflexivity|].
  apply (sanitized_name_is_markup_free PATCH_orders_id bold_7 "&lt;b&gt;");
    [right; left; reflexivity|reflexivity].
Defined.

(** X15.  The name a handler reads after validation on POST, PATCH or
    PUT has no white space at either end: escaping comes after trimming
    and adds none. *)
Theorem sanitized_name_is_trimmed r req s :
  r = POST_orders \/ r = PATCH_orders_id \/ r = PUT_orders_id ->
  body_name (sanitized r req) = Str s ->
  trim s = s.
Proof.
  intros Hr Hs.
  destruct Hr as [->|[->| ->]];
    rewrite ?sanitized_post, ?sanitized_patch, ?sanitized_put in Hs;
    cbn [body_name] in Hs.
  - injection Hs as <-. apply sanitized_name_neat.
  - destruct (value_eq_dec (body_name req) Undefined) as [E|E];
      [rewrite E in Hs; discriminate Hs|].
    rewrite (patch_name_supplied _ E) in Hs. injection Hs as <-.
    apply sanitized_name_neat.
  - injection Hs as <-. apply sanitized_name_neat.
Qed.

Lemma sanitized_name_is_trimmed_witness :
  body_name (sanitized PUT_orders_id bold_7) = Str "&lt;b&gt;"
  /\ trim "&lt;b&gt;" = "&lt;b&gt;".
Proof.
  split; [reflexivity|].
  apply (sanitized_name_is_trimmed PUT_orders_id bold_7 "&lt;b&gt;");
    [right; right; reflexivity|reflexivity].
Defined.

(** X16.  Validating a POST or PUT request a second time leaves it as the
    first validation did exactly when the trimmed name holds none of the
    eight characters [escape] replaces; otherwise the name is escaped
    again. *)
Theorem resanitizing_escapes_again r req :
  r = POST_orders \/ r = PUT_orders_id ->
  (sanitized r (sanitized r req) = sanitized r req
   <-> free_of special (trim (toString (body_name req))) = true).
Proof.
  intros Hr.
  assert (E : forall q, sanitized r q =
              mkRequest (params_id q)
                (Str (escape (trim (toString (body_name q))))) (body_quantity q)).
  { destruct Hr as [-> | ->]; intros;
      first [apply sanitized_post | apply sanitized_put]. }
  rewrite (E (sanitized r req)), (E req).
  cbn [params_id body_name body_quantity toString].
  rewrite sanitized_name_neat.
  rewrite <- escape_special, <- escape_fixed.
  split; intros H; [now injection H|now rewrite H].
Qed.

Lemma resanitizing_escapes_again_witness :
  sanitized POST_orders (sanitized POST_orders widget) = sanitized POST_orders widget
  /\ free_of special (trim (toString (body_name bold_7))) = false
  /\ body_name (sanitized POST_orders (sanitized POST_orders bold_7))
       = Str "&amp;lt;b&amp;gt;".
Proof.
  split; [|split; reflexivity].
  apply (proj2 (resanitizing_escapes_again POST_orders widget (or_introl eq_refl))).
  reflexivity.
Defined.
